(** * Odex_Patcher: the odex / deodex pipeline of [OdexPatcherAdvanced]

    A shallow embedding of [src/Odex_Patcher.py].  The Python methods are
    functions over an explicit world (file system and event log); Python
    exceptions are values of [exn]; the external compiler is a parameter.

    Conventions of the model:
    - a path is the list of its [pathlib] parts; the file system is a finite
      map from paths to nodes, read through [stat];
    - a regular file holds either opaque bytes or a zip container, given by
      the list of its entries (name, compression method, payload);
    - no symbolic links, no permission or disk failures, no limit on the
      length of a name; [..] is resolved only as the last component of a
      path;
    - a Python [str] is held as the UTF-8 encoding of its characters; a
      byte outside a well-formed sequence counts as a character of its own;
    - the worker pool of [process_files] is described under the schedule of
      one worker, which is the schedule of the code when [num_threads] is
      one: the statements about batches that touch files carry this as a
      premise. *)

From Stdlib Require Import ZArith Ascii String List.
From Stdlib Require Import Strings.Byte.
From stdpp Require Import base tactics option list gmap strings.

Open Scope Z_scope.

(** ** Python strings *)

Module PyStr.

(** [s.split(sep)] for a one-character separator. *)
Fixpoint split (sep : ascii) (s : string) : list string :=
  match s with
  | EmptyString => [EmptyString]
  | String c s' =>
      if Ascii.eqb c sep then EmptyString :: split sep s'
      else match split sep s' with
           | [] => [String c EmptyString]
           | w :: ws => String c w :: ws
           end
  end.

(** [sep.join(l)]. *)
Definition join (sep : string) (l : list string) : string :=
  String.concat sep l.

(** [s.startswith(pre)]. *)
Definition startswith (pre s : string) : bool := String.prefix pre s.

(** [s.rfind(c)]: index of the last occurrence, or [-1]. *)
Fixpoint rfind (c : ascii) (s : string) : Z :=
  match s with
  | EmptyString => -1
  | String a s' =>
      let i := rfind c s' in
      if 0 <=? i then i + 1
      else if Ascii.eqb a c then 0 else -1
  end.

Definition len (s : string) : Z := Z.of_nat (String.length s).

(** [s[:i]] for [0 <= i]. *)
Definition take (i : Z) (s : string) : string :=
  String.substring 0 (Z.to_nat i) s.

(** [c in s]. *)
Fixpoint contains (c : ascii) (s : string) : bool :=
  match s with
  | EmptyString => false
  | String a s' => Ascii.eqb a c || contains c s'
  end.

End PyStr.

(** ** pathlib and os.path *)

Abbreviation path := (list string).

Module PyPath.

Definition sep : ascii := "/"%char.

Definition is_anchor (s : string) : bool := PyStr.startswith "/" s.

(** The root of a POSIX path string: [//] when there are exactly two
    leading slashes, [/] for any other absolute path. *)
Definition anchor_of (s : string) : list string :=
  match s with
  | String "/" (String "/" (String "/" _)) => ["/"]
  | String "/" (String "/" _) => ["//"]
  | String "/" _ => ["/"]
  | _ => []
  end.

Definition keep_part (x : string) : bool :=
  negb (String.eqb x "") && negb (String.eqb x ".").

(** [Path(s)]: the parts of [s]; empty and [.] components are dropped. *)
Definition Path (s : string) : path :=
  anchor_of s ++ List.filter keep_part (PyStr.split sep s).

Definition is_absolute (p : path) : bool :=
  match p with
  | a :: _ => is_anchor a
  | [] => false
  end.

(** [p / s]. *)
Definition joinpath (p : path) (s : string) : path :=
  let q := Path s in
  if is_absolute q then q else p ++ q.

(** [p.name]: the last part, unless it is the anchor. *)
Definition name (p : path) : string :=
  let x := List.last p "" in
  if is_anchor x then "" else x.

(** [p.parent]. *)
Definition parent (p : path) : path :=
  match p with
  | [a] => if is_anchor a then p else []
  | _ => List.removelast p
  end.

(** [p.stem]: the name without its last suffix. *)
Definition stem (p : path) : string :=
  let n := name p in
  let i := PyStr.rfind "."%char n in
  if (0 <? i) && (i <? PyStr.len n - 1) then PyStr.take i n else n.

(** [str(p)]. *)
Definition str (p : path) : string :=
  match p with
  | [] => "."
  | a :: rest =>
      if is_anchor a then a +:+ PyStr.join "/" rest
      else PyStr.join "/" p
  end.

(** The component loop of [os.path.normpath]; [stack] holds the
    components kept so far, last one first. *)
Fixpoint collapse (absolute : bool) (stack comps : list string) : list string :=
  match comps with
  | [] => List.rev stack
  | c :: rest =>
      if String.eqb c "" || String.eqb c "." then collapse absolute stack rest
      else if negb (String.eqb c "..") then collapse absolute (c :: stack) rest
      else match stack with
           | [] => if absolute then collapse absolute stack rest
                   else collapse absolute (c :: stack) rest
           | top :: below =>
               if String.eqb top ".." then collapse absolute (c :: stack) rest
               else collapse absolute below rest
           end
  end.

(** [os.path.normpath(s)]. *)
Definition normpath (s : string) : string :=
  match s with
  | EmptyString => "."
  | _ =>
      let root := anchor_of s in
      let comps := collapse (negb (forallb (fun _ => false) root)) [] (PyStr.split sep s) in
      let r := String.concat "" root +:+ PyStr.join "/" comps in
      match r with EmptyString => "." | _ => r end
  end.

(** [while arcname[0] in (os.sep, os.altsep): arcname = arcname[1:]];
    [None] stands for the [IndexError] on an exhausted string. *)
Fixpoint strip_leading_sep (s : string) : option string :=
  match s with
  | EmptyString => None
  | String c s' => if Ascii.eqb c sep then strip_leading_sep s' else Some s
  end.

End PyPath.

Notation "p // s" := (PyPath.joinpath p s) (at level 40, left associativity).


(** ** Exceptions and outcomes *)

Inductive exn :=
| FileNotFoundError (msg : string)
| ValueError (msg : string)
| BadZipFile
| FileExistsError
| NotADirectoryError
| IsADirectoryError
| PermissionError
| OSError
| IndexError
| KeyError (key : string)
| TypeError
| AttributeError (msg : string).

(** [str(e)] for the exceptions whose text reaches a result. *)
Definition exn_str (e : exn) : string :=
  match e with
  | FileNotFoundError msg | ValueError msg | AttributeError msg => msg
  | BadZipFile => "File is not a zip file"
  | FileExistsError => "[Errno 17] File exists"
  | NotADirectoryError => "[Errno 20] Not a directory"
  | IsADirectoryError => "[Errno 21] Is a directory"
  | PermissionError => "[Errno 13] Permission denied"
  | OSError => "[Errno 22] Invalid argument"
  | IndexError => "string index out of range"
  | KeyError key => "'" +:+ key +:+ "'"
  | TypeError => "expected str, bytes or os.PathLike object"
  end.

Inductive outcome (A : Type) :=
| Return (a : A)
| Raise (e : exn).
Arguments Return {A} a.
Arguments Raise {A} e.

(** ** Archives and the file system *)

Inductive compression := ZIP_STORED | ZIP_DEFLATED | ZIP_BZIP2 | ZIP_LZMA.

(** File data: opaque bytes, or a well-formed zip container with its
    entries in archive order.  A payload is file data again: an entry may
    itself be an archive. *)
Inductive data :=
| Blob (bytes : list byte)
| Zip (entries : list zentry)
with zentry :=
| ZEntry (filename : string) (compress_type : compression) (payload : data).

Definition filename (e : zentry) : string :=
  match e with ZEntry n _ _ => n end.
Definition compress_type (e : zentry) : compression :=
  match e with ZEntry _ c _ => c end.
Definition payload (e : zentry) : data :=
  match e with ZEntry _ _ d => d end.

Inductive node :=
| File (d : data)
| Dir.

Abbreviation filesystem := (gmap path node).

Module FS.

(** The node a path denotes.  The empty path is the working directory;
    a trailing [..] denotes a directory whenever the path before it does. *)
Fixpoint stat_rev (fs : filesystem) (rp : list string) : option node :=
  match rp with
  | [] => Some Dir
  | c :: rp' =>
      if String.eqb c ".." then
        match stat_rev fs rp' with
        | Some Dir => Some Dir
        | _ => None
        end
      else fs !! List.rev rp
  end.

Definition stat (fs : filesystem) (p : path) : option node :=
  stat_rev fs (List.rev p).

Definition is_file (fs : filesystem) (p : path) : bool :=
  match stat fs p with Some (File _) => true | _ => false end.

Definition is_dir (fs : filesystem) (p : path) : bool :=
  match stat fs p with Some Dir => true | _ => false end.

(** [Path.mkdir(parents=True, exist_ok=True)]: every missing prefix of
    [todo] below [done] is created; a regular file in the way fails. *)
Fixpoint mkdir_from (fs : filesystem) (done todo : path) : filesystem * outcome unit :=
  match todo with
  | [] => (fs, Return tt)
  | c :: rest =>
      let q := done ++ [c] in
      match stat fs q with
      | Some Dir => mkdir_from fs q rest
      | Some (File _) =>
          (fs, Raise (match rest with [] => FileExistsError | _ => NotADirectoryError end))
      | None => mkdir_from (<[q := Dir]> fs) q rest
      end
  end.

Definition mkdir_parents (p : path) (fs : filesystem) : filesystem * outcome unit :=
  mkdir_from fs [] p.

(** [open(p, "wb")] followed by writing [d] and closing. *)
Definition write_file (p : path) (d : data) (fs : filesystem) : filesystem * outcome unit :=
  match stat fs p with
  | Some Dir => (fs, Raise IsADirectoryError)
  | _ =>
      match stat fs (PyPath.parent p) with
      | Some Dir => (<[p := File d]> fs, Return tt)
      | Some (File _) => (fs, Raise NotADirectoryError)
      | None =>
          (fs, Raise (FileNotFoundError
                        ("[Errno 2] No such file or directory: '" +:+ PyPath.str p +:+ "'")))
      end
  end.

(** A directory that cannot be unlinked under the name given: the
    working directory, a root, or a name ending in [..]. *)
Definition unremovable (p : path) : bool :=
  match List.rev p with
  | [] => true
  | c :: below =>
      String.eqb c ".." ||
      match below with [] => PyPath.is_anchor c | _ => false end
  end.

(** Drop the trailing [..] components together with the names they
    cancel: the directory that [stat] found. *)
Fixpoint target_rev (rp : list string) : list string :=
  match rp with
  | c :: rp' =>
      if String.eqb c ".." then List.tl (target_rev rp') else rp
  | [] => []
  end.

Definition target (p : path) : path := List.rev (target_rev (List.rev p)).

(** [q] lies in the tree rooted at directory [d]. *)
Definition under (d q : path) : Prop :=
  d `prefix_of` q ∧ (d = [] → PyPath.is_absolute q = false).

Global Instance under_dec d q : Decision (under d q).
Proof. unfold under. apply _. Defined.

(** [shutil.rmtree(p)]: everything below the directory goes; the
    directory itself goes too when it can be unlinked, otherwise the call
    ends in [OSError]. *)
Definition rmtree (p : path) (fs : filesystem) : filesystem * outcome unit :=
  match stat fs p with
  | None =>
      (fs, Raise (FileNotFoundError
                    ("[Errno 2] No such file or directory: '" +:+ PyPath.str p +:+ "'")))
  | Some (File _) => (fs, Raise NotADirectoryError)
  | Some Dir =>
      let d := target p in
      if unremovable p then
        (filter (λ kv, ¬ under d kv.1 ∨ kv.1 = d) fs, Raise OSError)
      else
        (filter (λ kv, ¬ under d kv.1) fs, Return tt)
  end.

(** [os.remove(p)]. *)
Definition remove (p : path) (fs : filesystem) : filesystem * outcome unit :=
  match stat fs p with
  | None =>
      (fs, Raise (FileNotFoundError
                    ("[Errno 2] No such file or directory: '" +:+ PyPath.str p +:+ "'")))
  | Some Dir => (fs, Raise IsADirectoryError)
  | Some (File _) => (delete p fs, Return tt)
  end.

End FS.

(** ** zipfile *)

Module ZipFile.

(** [ZipFile.namelist()]. *)
Definition namelist (es : list zentry) : list string := List.map filename es.

(** [ZipFile.getinfo(name)]: the name table keeps the last entry
    recorded under a name. *)
Definition getinfo (es : list zentry) (n : string) : option zentry :=
  List.find (fun e => String.eqb (filename e) n) (List.rev es).

(** [ZipFile.read(name)]. *)
Definition read (es : list zentry) (n : string) : outcome data :=
  match getinfo es n with
  | Some e => Return (payload e)
  | None => Raise (KeyError n)
  end.

(** [ZipFile(p, 'r')]: the entries of the archive at [p]. *)
Definition open_r (fs : filesystem) (p : path) : outcome (list zentry) :=
  match FS.stat fs p with
  | None =>
      Raise (FileNotFoundError
               ("[Errno 2] No such file or directory: '" +:+ PyPath.str p +:+ "'"))
  | Some Dir => Raise IsADirectoryError
  | Some (File (Blob _)) => Raise BadZipFile
  | Some (File (Zip es)) => Return es
  end.

(** The archive name [ZipInfo.from_file] derives from [arcname]. *)
Definition from_file_arcname (arcname : string) : outcome string :=
  match PyPath.strip_leading_sep (PyPath.normpath arcname) with
  | Some a => Return a
  | None => Raise IndexError
  end.

(** [ZipFile.write(p, arcname)] on an archive opened with
    [ZIP_DEFLATED]: the entry appended for the file at [p]. *)
Definition write (fs : filesystem) (p : path) (arcname : string) : outcome zentry :=
  match FS.stat fs p with
  | None =>
      Raise (FileNotFoundError
               ("[Errno 2] No such file or directory: '" +:+ PyPath.str p +:+ "'"))
  | Some nd =>
      match from_file_arcname arcname with
      | Raise e => Raise e
      | Return a =>
          match nd with
          | Dir => Return (ZEntry (a +:+ "/") ZIP_STORED (Blob []))
          | File d => Return (ZEntry a ZIP_DEFLATED d)
          end
      end
  end.

End ZipFile.

(** ** Worlds and the monad of the methods *)

Inductive event :=
| Enter (method : string)
| Spawn (argv : list string).

Record world := World { files : filesystem; trace : list event }.

Definition M (A : Type) : Type := world → world * outcome A.

Global Instance M_ret : MRet M := λ A a w, (w, Return a).

Global Instance M_bind : MBind M := λ A B k m w,
  match m w with
  | (w', Return a) => k a w'
  | (w', Raise e) => (w', Raise e)
  end.

Definition raise {A} (e : exn) : M A := λ w, (w, Raise e).

(** Record an event. *)
Definition emit (ev : event) : M unit :=
  λ w, (World (files w) (trace w ++ [ev]), Return tt).

(** Lift a file-system operation. *)
Definition on_files {A} (op : filesystem → filesystem * outcome A) : M A :=
  λ w, let '(fs', r) := op (files w) in (World fs' (trace w), r).

(** Lift a file-system query. *)
Definition ask_files {A} (q : filesystem → A) : M A :=
  λ w, (w, Return (q (files w))).

Definition lift_outcome {A} (r : outcome A) : M A := λ w, (w, r).

(** [try: m except <handled by h>: ...]; [h] returns [None] for an
    exception the clause does not name. *)
Definition try_except {A} (m : M A) (h : exn → option (M A)) : M A := λ w,
  match m w with
  | (w', Return a) => (w', Return a)
  | (w', Raise e) =>
      match h e with
      | Some k => k w'
      | None => (w', Raise e)
      end
  end.

(** [try: m finally: f]: [f] always runs; an exception of [f] replaces
    the outcome of [m]. *)
Definition try_finally {A} (m : M A) (f : M unit) : M A := λ w,
  let '(w1, r) := m w in
  match f w1 with
  | (w2, Return _) => (w2, r)
  | (w2, Raise e) => (w2, Raise e)
  end.

(** ** Python values of the results *)

Inductive field :=
| FStr (s : string)
| FPath (p : path).

(** A result dictionary: its items in insertion order, one per key. *)
Abbreviation pydict := (list (string * field)).

(** [d[key]], as an option. *)
Global Instance pydict_lookup : Lookup string field (list (string * field)) :=
  λ key d, snd <$> List.find (λ kv, String.eqb kv.1 key) d.

(** [d[key] = v]. *)
Fixpoint dict_set (d : pydict) (key : string) (v : field) : pydict :=
  match d with
  | [] => [(key, v)]
  | (k, x) :: rest =>
      if String.eqb k key then (k, v) :: rest else (k, x) :: dict_set rest key v
  end.

(** An [output_dir] argument: a [str] or a [Path] object. *)
Inductive dirarg :=
| DStr (s : string)
| DPath (p : path).

(** The values a local variable of [odex_apk] can hold. *)
Inductive pyval :=
| VNone
| VStr (s : string)
| VPath (p : path)
| VStrs (l : list string)
| VDict (d : pydict)
| VDir (a : dirarg)
| VSelf.

Abbreviation frame := (gmap string pyval).

(** The outcome of [subprocess.run(argv, capture_output=True, text=True,
    check=True)] before [check] is applied. *)
Inductive completed :=
| Exited (returncode : Z) (stderr : string)
| LaunchError (e : exn).

Record OdexPatcherAdvanced := {
  android_sdk_path : option string;
  num_threads : Z;
  tmp_dir : path;
  dex2oat_path : string
}.

(** A dict literal. *)
Definition dict (items : list (string * field)) : pydict :=
  List.fold_left (λ d kv, dict_set d kv.1 kv.2) items [].

(** [lo <= c <= hi] for a byte. *)
Definition byte_in (lo hi : N) (c : ascii) : bool :=
  N.leb lo (N_of_ascii c) && N.leb (N_of_ascii c) hi.

(** A continuation byte of UTF-8. *)
Definition continuation (c : ascii) : bool := byte_in 128 191 c.

(** The number of bytes of the first character of [String c rest]: the
    length of the well-formed UTF-8 sequence that starts the string, and
    one for a byte that starts none. *)
Definition char_width (c : ascii) (rest : string) : nat :=
  if byte_in 194 223 c then
    match rest with
    | String c1 _ => if continuation c1 then 2%nat else 1%nat
    | _ => 1%nat
    end
  else if byte_in 224 239 c then
    match rest with
    | String c1 (String c2 _) =>
        if (if byte_in 224 224 c then byte_in 160 191 c1
            else if byte_in 237 237 c then byte_in 128 159 c1
            else continuation c1)
           && continuation c2
        then 3%nat else 1%nat
    | _ => 1%nat
    end
  else if byte_in 240 244 c then
    match rest with
    | String c1 (String c2 (String c3 _)) =>
        if (if byte_in 240 240 c then byte_in 144 191 c1
            else if byte_in 244 244 c then byte_in 128 143 c1
            else continuation c1)
           && continuation c2 && continuation c3
        then 4%nat else 1%nat
    | _ => 1%nat
    end
  else 1%nat.

(** [s[0]]: the first character of [s]. *)
Definition first_char (s : string) : outcome string :=
  match s with
  | EmptyString => Raise IndexError
  | String c rest => Return (String.substring 0 (char_width c rest) s)
  end.

(** [ZipFile.writestr(item, buffer)] with a [ZipInfo] first argument: the
    entry keeps the name and the compression method of [item]. *)
Definition writestr (item : zentry) (buffer : data) : zentry :=
  ZEntry (filename item) (compress_type item) buffer.

(** [with ZipFile(out, 'w', ZIP_DEFLATED) as target_zip: body]: the file is
    created when the archive is opened and holds, once the block is left by
    any exit, the entries written so far. *)
Definition with_zip_w {A} (out : path)
    (body : filesystem → list zentry * outcome A) : M A :=
  on_files (FS.write_file out (Zip []));;
  ((λ w, let '(entries, r) := body (files w) in
         (World (<[out := File (Zip entries)]> (files w)) (trace w), r)) : M A).

(** [ZipFile(p, 'r')] in a world. *)
Definition zip_open_r (p : path) : M (list zentry) :=
  λ w, (w, ZipFile.open_r (files w) p).

(** The copy loop of [_package_odex] (lines 171-174). *)
Fixpoint package_loop (source items target : list zentry)
  : list zentry * outcome unit :=
  match items with
  | [] => (target, Return tt)
  | item :: rest =>
      match ZipFile.read source (filename item) with
      | Raise e => (target, Raise e)
      | Return buffer =>
          if negb (String.eqb (filename item) "classes.dex")
          then package_loop source rest (target ++ [writestr item buffer])
          else package_loop source rest target
      end
  end.

(** The filter loop of [deodex_apk] (lines 254-260); the boolean is
    [found_dex]. *)
Fixpoint deodex_loop (source items target : list zentry) (found_dex : bool)
  : list zentry * outcome bool :=
  match items with
  | [] => (target, Return found_dex)
  | item :: rest =>
      if negb (PyStr.startswith "oat/" (filename item))
         && negb (String.eqb (filename item) "classes.dex")
      then match ZipFile.read source (filename item) with
           | Raise e => (target, Raise e)
           | Return buffer =>
               deodex_loop source rest (target ++ [writestr item buffer]) found_dex
           end
      else if String.eqb (filename item) "classes.dex"
      then deodex_loop source rest target true
      else deodex_loop source rest target found_dex
  end.

(** [d[key]] where a path is expected. *)
Definition dict_path (d : pydict) (key : string) : M path :=
  match d !! key with
  | Some (FPath p) => mret p
  | Some (FStr _) => raise (AttributeError "'str' object has no attribute 'stem'")
  | None => raise (KeyError key)
  end.

(** [Path(v)] for a local variable. *)
Definition as_path (v : pyval) : M path :=
  match v with
  | VPath p | VDir (DPath p) => mret p
  | VStr s | VDir (DStr s) => mret (PyPath.Path s)
  | _ => raise TypeError
  end.

(** ** The methods of [OdexPatcherAdvanced] *)

Section Patcher.

(** The external compiler, as [subprocess.run] sees it: from the argument
    vector and the file system to the file system it leaves and the way
    the process ended. *)
Variable dex2oat : list string → filesystem → filesystem * completed.

Variable self : OdexPatcherAdvanced.

Definition subprocess_run (command : list string) : M completed :=
  emit (Spawn command);;
  on_files (λ fs, let '(fs', c) := dex2oat command fs in (fs', Return c)).

(** Lines 65-97. *)
Definition _extract_dex (apk_path : path) : M (path * path) :=
  emit (Enter "_extract_dex");;
  is_file ← ask_files (λ fs, FS.is_file fs apk_path);
  if negb is_file
  then raise (FileNotFoundError ("APK file not found: " +:+ PyPath.str apk_path))
  else
    let output_dir := tmp_dir self // PyPath.stem apk_path in
    on_files (FS.mkdir_parents output_dir);;
    let dex_output_path := output_dir // "classes.dex" in
    try_except
      (apk_zip ← zip_open_r apk_path;
       if bool_decide ("classes.dex" ∈ ZipFile.namelist apk_zip)
       then
         source ← lift_outcome (ZipFile.read apk_zip "classes.dex");
         on_files (FS.write_file dex_output_path source);;
         mret (dex_output_path, apk_path)
       else
         raise (ValueError ("`classes.dex` not found in " +:+ PyPath.str apk_path)))
      (λ e, match e with
            | BadZipFile =>
                Some (raise (ValueError ("Invalid ZIP file: " +:+ PyPath.str apk_path)))
            | _ => None
            end).

(** Lines 111-112. *)
Definition oat_output_path (output_apk_path : path) : path :=
  tmp_dir self // (PyPath.stem output_apk_path +:+ ".oat").

Definition vdex_output_path (output_apk_path : path) : path :=
  tmp_dir self // (PyPath.stem output_apk_path +:+ ".vdex").

(** Lines 114-124; [if bootclasspath:] holds for a non-empty list. *)
Definition odex_command (dex_path output_apk_path : path)
    (bootclasspath : option (list string)) : list string :=
  [ dex2oat_path self;
    "--dex-file=" +:+ PyPath.str dex_path;
    "--output-oat-file=" +:+ PyPath.str (oat_output_path output_apk_path);
    "--oat-file-format=vdex";
    "--output-vdex-file=" +:+ PyPath.str (vdex_output_path output_apk_path);
    "--compiler-filter=speed" ]
  ++ match bootclasspath with
     | Some (b :: bs) => [ "--boot-image=" +:+ PyStr.join ":" (b :: bs) ]
     | _ => []
     end.

(** Lines 99-146. *)
Definition _odex_file (dex_path output_apk_path : path)
    (bootclasspath : option (list string)) : M pydict :=
  emit (Enter "_odex_file");;
  let command := odex_command dex_path output_apk_path bootclasspath in
  result ← subprocess_run command;
  match result with
  | Exited 0 _ =>
      mret (dict [
        ("status", FStr "success");
        ("message", FStr ("Successfully odexed " +:+ PyPath.name dex_path));
        ("oat_path", FPath (oat_output_path output_apk_path));
        ("vdex_path", FPath (vdex_output_path output_apk_path));
        ("original_apk", FPath output_apk_path) ])
  | Exited _ stderr =>
      mret (dict [
        ("status", FStr "error");
        ("message", FStr ("Error odexing " +:+ PyPath.name dex_path +:+ ": " +:+ stderr));
        ("original_apk", FPath output_apk_path) ])
  | LaunchError (FileNotFoundError _) =>
      mret (dict [
        ("status", FStr "error");
        ("message", FStr "`dex2oat` not found. Ensure Android SDK path is correct or in PATH.");
        ("original_apk", FPath output_apk_path) ])
  | LaunchError e => raise e
  end.

(** The body of the [with] block of [_package_odex] (lines 171-180). *)
Definition package_body (source : list zentry) (oat_path vdex_path : path)
    (fs : filesystem) : list zentry * outcome unit :=
  match package_loop source source [] with
  | (copied, Raise e) => (copied, Raise e)
  | (copied, Return _) =>
      match first_char (PyPath.name oat_path) with
      | Raise e => (copied, Raise e)
      | Return oat_shard =>
          let oat_arc_name := "oat/" +:+ oat_shard +:+ "/" +:+ PyPath.name oat_path in
          match first_char (PyPath.name vdex_path) with
          | Raise e => (copied, Raise e)
          | Return vdex_shard =>
              let vdex_arc_name :=
                "oat/" +:+ vdex_shard +:+ "/" +:+ PyPath.name vdex_path in
              match ZipFile.write fs oat_path oat_arc_name with
              | Raise e => (copied, Raise e)
              | Return oat_entry =>
                  match ZipFile.write fs vdex_path vdex_arc_name with
                  | Raise e => (copied ++ [oat_entry], Raise e)
                  | Return vdex_entry =>
                      (copied ++ [oat_entry; vdex_entry], Return tt)
                  end
              end
          end
      end
  end.

(** Lines 148-187. *)
Definition _package_odex (original_apk_path oat_path vdex_path : path)
    (output_dir : option path) : M pydict :=
  emit (Enter "_package_odex");;
  let output_dir := match output_dir with None => PyPath.Path "." | Some d => d end in
  on_files (FS.mkdir_parents output_dir);;
  let output_apk_name := PyPath.stem original_apk_path +:+ "-odexed.apk" in
  let output_apk_path := output_dir // output_apk_name in
  try_except
    (source_zip ← zip_open_r original_apk_path;
     with_zip_w output_apk_path (package_body source_zip oat_path vdex_path);;
     mret (dict [
       ("status", FStr "success");
       ("message", FStr ("Odexed APK created at: " +:+ PyPath.str output_apk_path));
       ("output_path", FPath output_apk_path) ]))
    (λ e, match e with
          | BadZipFile =>
              Some (mret (dict [
                ("status", FStr "error");
                ("message", FStr ("Error processing ZIP file: "
                                  +:+ PyPath.str original_apk_path)) ]))
          | FileNotFoundError _ =>
              Some (mret (dict [
                ("status", FStr "error");
                ("message", FStr ("Required file not found: " +:+ exn_str e)) ]))
          | _ => None
          end).

(** [Path(output_dir) if output_dir else None] (line 207). *)
Definition output_dir_arg (output_dir : option dirarg) : option path :=
  match output_dir with
  | None => None
  | Some (DStr EmptyString) => None
  | Some (DStr s) => Some (PyPath.Path s)
  | Some (DPath p) => Some p
  end.

(** [d["status"] == "success"]. *)
Definition status_is_success (d : pydict) : M bool :=
  match d !! "status" with
  | Some (FStr s) => mret (String.eqb s "success")
  | Some _ => mret false
  | None => raise (KeyError "status")
  end.

(** The [try] block of [odex_apk] (lines 203-211), with the local
    variables it has bound when it is left. *)
Definition odex_apk_try (apk_file : path) (bootclasspath : option (list string))
    (output_dir : option dirarg) (locals : frame) (w : world)
  : world * (frame * outcome pydict) :=
  match _extract_dex apk_file w with
  | (w1, Raise e) => (w1, (locals, Raise e))
  | (w1, Return (dex_path, original_apk)) =>
      let locals :=
        <["original_apk" := VPath original_apk]>
          (<["dex_path" := VPath dex_path]> locals) in
      match _odex_file dex_path original_apk bootclasspath w1 with
      | (w2, Raise e) => (w2, (locals, Raise e))
      | (w2, Return odex_result) =>
          let locals := <["odex_result" := VDict odex_result]> locals in
          match status_is_success odex_result w2 with
          | (w2', Raise e) => (w2', (locals, Raise e))
          | (w2', Return true) =>
              match (original ← dict_path odex_result "original_apk";
                     oat_path ← dict_path odex_result "oat_path";
                     vdex_path ← dict_path odex_result "vdex_path";
                     _package_odex original oat_path vdex_path
                       (output_dir_arg output_dir)) w2' with
              | (w3, Raise e) => (w3, (locals, Raise e))
              | (w3, Return package_result) =>
                  (w3, (<["package_result" := VDict package_result]> locals,
                        Return package_result))
              end
          | (w2', Return false) => (w2', (locals, Return odex_result))
          end
      end
  end.

(** [if key in locals() and Path(locals()[key]).is_file():
    os.remove(locals()[key])] (lines 219-222). *)
Definition remove_local (locals : frame) (key : string) : M unit :=
  match locals !! key with
  | None => mret tt
  | Some v =>
      p ← as_path v;
      is_file ← ask_files (λ fs, FS.is_file fs p);
      if (is_file : bool) then on_files (FS.remove p) else mret tt
  end.

(** The [finally] block of [odex_apk] (lines 215-222). *)
Definition odex_apk_finally (apk_file : path) (locals : frame) : M unit :=
  let temp_apk_dir := tmp_dir self // PyPath.stem apk_file in
  let locals := <["temp_apk_dir" := VPath temp_apk_dir]> locals in
  is_dir ← ask_files (λ fs, FS.is_dir fs temp_apk_dir);
  (if (is_dir : bool) then on_files (FS.rmtree temp_apk_dir) else mret tt);;
  remove_local locals "oat_path";;
  remove_local locals "vdex_path".

Definition optional {A} (f : A → pyval) (o : option A) : pyval :=
  match o with Some a => f a | None => VNone end.

(** Lines 189-222. *)
Definition odex_apk (apk_path : string) (bootclasspath : option (list string))
    (output_dir : option dirarg) : M pydict := λ w,
  let apk_file := PyPath.Path apk_path in
  let locals : frame :=
    <["apk_file" := VPath apk_file]>
      (<["output_dir" := optional VDir output_dir]>
         (<["bootclasspath" := optional VStrs bootclasspath]>
            (<["apk_path" := VStr apk_path]> (<["self" := VSelf]> ∅)))) in
  let '(w1, (locals, r)) := odex_apk_try apk_file bootclasspath output_dir locals w in
  let r :=
    match r with
    | Raise (FileNotFoundError _ as e) | Raise (ValueError _ as e) =>
        Return (dict [
          ("status", FStr "error");
          ("message", FStr (exn_str e));
          ("original_apk", FPath apk_file) ])
    | _ => r
    end in
  match odex_apk_finally apk_file locals w1 with
  | (w2, Return _) => (w2, r)
  | (w2, Raise e) => (w2, Raise e)
  end.

(** Lines 224-268.  [output_dir.mkdir] is called on the argument as it
    was passed. *)
Definition deodex_apk (apk_path : string) (output_dir : option dirarg) : M pydict :=
  let apk_file := PyPath.Path apk_path in
  is_file ← ask_files (λ fs, FS.is_file fs apk_file);
  if negb is_file
  then mret (dict [
         ("status", FStr "error");
         ("message", FStr ("APK file not found: " +:+ PyPath.str apk_file)) ])
  else
    output_dir ← match output_dir with
                 | None => mret (PyPath.Path ".")
                 | Some (DPath p) => mret p
                 | Some (DStr _) =>
                     raise (AttributeError "'str' object has no attribute 'mkdir'")
                 end;
    on_files (FS.mkdir_parents output_dir);;
    let output_apk_name := PyPath.stem apk_file +:+ "-deodexed.apk" in
    let output_apk_path := output_dir // output_apk_name in
    try_except
      (source_zip ← zip_open_r apk_file;
       found_dex ← with_zip_w output_apk_path
                     (λ _, deodex_loop source_zip source_zip [] false);
       if negb found_dex
       then mret (dict [
              ("status", FStr "warning");
              ("message", FStr ("No classes.dex found in " +:+ PyPath.str apk_file
                                +:+ ". Already deodexed?"));
              ("output_path", FPath output_apk_path) ])
       else mret (dict [
              ("status", FStr "success");
              ("message", FStr ("Attempted deodexed APK created at: "
                                +:+ PyPath.str output_apk_path +:+ " (OAT/VDex removed)"));
              ("output_path", FPath output_apk_path) ]))
      (λ e, match e with
            | BadZipFile =>
                Some (mret (dict [
                  ("status", FStr "error");
                  ("message", FStr ("Invalid ZIP file: " +:+ apk_path)) ]))
            | _ => None
            end).

(** The work submitted for one path (lines 288-291), if any. *)
Definition task_of (operation : string) (bootclasspath : option (list string))
    (output_dir : option dirarg) (file_path : string) : option (M pydict) :=
  if String.eqb operation "odex"
  then Some (odex_apk file_path bootclasspath output_dir)
  else if String.eqb operation "deodex"
  then Some (deodex_apk file_path output_dir)
  else None.

(** The result appended for a path when nothing is submitted (line 293). *)
Definition invalid_operation (operation file_path : string) : pydict :=
  dict [
    ("status", FStr "error");
    ("message", FStr ("Invalid operation: " +:+ operation));
    ("original_file", FStr file_path) ].

(** The worker pool, under the schedule of a single worker: the submitted
    tasks run to their end one after the other, in submission order.  This
    is the schedule of [ThreadPoolExecutor(max_workers=1)]; with more
    workers the tasks of the code overlap in time. *)
Fixpoint run_pool (tasks : list (M pydict)) (w : world)
  : world * list (outcome pydict) :=
  match tasks with
  | [] => (w, [])
  | t :: rest =>
      let '(w1, r) := t w in
      let '(w2, rs) := run_pool rest w1 in
      (w2, r :: rs)
  end.

(** [for future in futures: results.append(future.result())]. *)
Fixpoint gather (futures : list (outcome pydict)) (results : list pydict)
  : outcome (list pydict) :=
  match futures with
  | [] => Return results
  | Return r :: rest => gather rest (results ++ [r])
  | Raise e :: _ => Raise e
  end.

(** Lines 270-298.  [ThreadPoolExecutor(max_workers=n)] raises
    [ValueError] for [n <= 0], before any input is looked at. *)
Definition process_files (file_paths : list string) (operation : string)
    (bootclasspath : option (list string)) (output_dir : option dirarg)
  : M (list pydict) := λ w,
  if num_threads self <=? 0
  then (w, Raise (ValueError "max_workers must be greater than 0"))
  else
    let submitted := List.map (λ fp, (fp, task_of operation bootclasspath output_dir fp))
                       file_paths in
    let results :=
      omap (λ '(fp, t), match t with
                        | None => Some (invalid_operation operation fp)
                        | Some _ => None
                        end) submitted in
    let futures := omap snd submitted in
    let '(w', done) := run_pool futures w in
    (w', gather done results).


End Patcher.

(** ** Well-formed file systems *)

(** The non-empty proper prefixes of a path, shortest first. *)
Fixpoint ancestors_from (done todo : path) : list path :=
  match todo with
  | [] | [_] => []
  | c :: rest => (done ++ [c]) :: ancestors_from (done ++ [c]) rest
  end.

Definition ancestors (p : path) : list path := ancestors_from [] p.

Definition stored_dir (fs : filesystem) (q : path) : bool :=
  match fs !! q with Some Dir => true | _ => false end.

(** Every stored node has a name free of [..] and lies in a chain of stored
    directories. *)
Definition wf_node (fs : filesystem) (p : path) : Prop :=
  (p ≠ []) ∧ (".." ∉ p) ∧ Forall (λ q, stored_dir fs q = true) (ancestors p).

Definition wf_fs (fs : filesystem) : Prop :=
  map_Forall (λ p _, wf_node fs p) fs.

Global Instance wf_fs_dec fs : Decision (wf_fs fs).
Proof. unfold wf_fs, wf_node. apply _. Defined.

(** ** Notions used by the statements *)

(** A string without the path separator. *)
Definition sep_free (s : string) : Prop := PyStr.contains PyPath.sep s = false.


Global Instance event_eq_dec : EqDecision event.
Proof. solve_decision. Defined.

Global Instance field_eq_dec : EqDecision field.
Proof. solve_decision. Defined.



(** The entry that the copy of [item] becomes: its buffer is read back by
    name from [source]. *)
Definition copy_of (source : list zentry) (item : zentry) : zentry :=
  match ZipFile.getinfo source (filename item) with
  | Some e => writestr item (payload e)
  | None => item
  end.

Definition kept_by_odex (item : zentry) : bool :=
  negb (String.eqb (filename item) "classes.dex").

Definition kept_by_strip (item : zentry) : bool :=
  negb (PyStr.startswith "oat/" (filename item))
  && negb (String.eqb (filename item) "classes.dex").

(** ** A concrete installation *)

Module Demo.

Definition patcher : OdexPatcherAdvanced :=
  {| android_sdk_path := None;
     num_threads := 4;
     tmp_dir := ["tmp_odex_patcher"];
     dex2oat_path := "dex2oat" |}.

(** The same installation with a pool of one worker. *)
Definition one_worker : OdexPatcherAdvanced :=
  {| android_sdk_path := None;
     num_threads := 1;
     tmp_dir := ["tmp_odex_patcher"];
     dex2oat_path := "dex2oat" |}.

(** [app.apk]: the bytecode and two other entries. *)
Definition app_entries : list zentry :=
  [ ZEntry "AndroidManifest.xml" ZIP_DEFLATED (Blob [x3c; x6d]);
    ZEntry "classes.dex" ZIP_DEFLATED (Blob [x64; x65; x78]);
    ZEntry "res/icon.png" ZIP_STORED (Blob [x89; x50]) ].

(** [lib.apk]: no bytecode entry. *)
Definition lib_entries : list zentry :=
  [ ZEntry "AndroidManifest.xml" ZIP_DEFLATED (Blob [x3c; x6c]);
    ZEntry "res/icon.png" ZIP_STORED (Blob [x89; x51]) ].

(** [old.apk]: carries an entry below [oat/] of its own. *)
Definition old_entries : list zentry :=
  [ ZEntry "classes.dex" ZIP_DEFLATED (Blob [x64; x65; x78]);
    ZEntry "oat/arm64/base.art" ZIP_STORED (Blob [x61; x72; x74]) ].

(** [dup.apk]: two entries recorded under one name. *)
Definition dup_entries : list zentry :=
  [ ZEntry "res/a" ZIP_STORED (Blob [x01]);
    ZEntry "res/a" ZIP_DEFLATED (Blob [x02]) ].

Definition fs : filesystem :=
  <[ ["dup.apk"] := File (Zip dup_entries) ]>
    (<[ ["old.apk"] := File (Zip old_entries) ]>
       (<[ ["lib.apk"] := File (Zip lib_entries) ]>
          (<[ ["app.apk"] := File (Zip app_entries) ]>
             (<[ ["tmp_odex_patcher"] := Dir ]> ∅)))).

Definition world : world := World fs [].

(** A compiler that writes the two artifacts of the archive named by its
    [--output-oat-file] argument and exits with status zero. *)
Definition artifact_of (pre arg : string) : option path :=
  if PyStr.startswith pre arg
  then Some (PyPath.Path (String.substring (String.length pre)
                            (String.length arg - String.length pre) arg))
  else None.

Definition emit_artifact (pre : string) (bytes : list byte)
    (arg : string) (fs : filesystem) : filesystem :=
  match artifact_of pre arg with
  | Some p => <[p := File (Blob bytes)]> fs
  | None => fs
  end.

Definition dex2oat (argv : list string) (fs : filesystem) : filesystem * completed :=
  (List.fold_right
     (λ arg fs, emit_artifact "--output-oat-file=" [x6f; x61; x74]
                  arg (emit_artifact "--output-vdex-file=" [x76; x64] arg fs))
     fs argv,
   Exited 0 "").

(** A compiler that rejects its input. *)
Definition failing_dex2oat (argv : list string) (fs : filesystem)
  : filesystem * completed :=
  (fs, Exited 1 "dex2oat: bad dex magic").

End Demo.


(** ** Runs of the [try] block of [odex_apk] *)

Section TryRuns.

Variable dex2oat : list string → filesystem → filesystem * completed.
Variable self : OdexPatcherAdvanced.

(** [try_run apk_file bootclasspath output_dir w w' r t]: started in [w],
    the block ends in [w'] with outcome [r], having left the events [t]. *)
Inductive try_run (apk_file : path) (bootclasspath : option (list string))
    (output_dir : option dirarg) (w : world)
  : world → outcome pydict → list event → Prop :=
| try_extract_raised w1 e :
    _extract_dex self apk_file w = (w1, Raise e) →
    try_run apk_file bootclasspath output_dir w w1 (Raise e)
      [Enter "_extract_dex"]
| try_compile_raised w1 dex_path w2 e :
    _extract_dex self apk_file w = (w1, Return (dex_path, apk_file)) →
    _odex_file dex2oat self dex_path apk_file bootclasspath w1 = (w2, Raise e) →
    try_run apk_file bootclasspath output_dir w w2 (Raise e)
      [Enter "_extract_dex"; Enter "_odex_file";
       Spawn (odex_command self dex_path apk_file bootclasspath)]
| try_compile_failed w1 dex_path w2 msg :
    _extract_dex self apk_file w = (w1, Return (dex_path, apk_file)) →
    _odex_file dex2oat self dex_path apk_file bootclasspath w1
    = (w2, Return (dict [ ("status", FStr "error"); ("message", FStr msg);
                          ("original_apk", FPath apk_file) ])) →
    try_run apk_file bootclasspath output_dir w w2
      (Return (dict [ ("status", FStr "error"); ("message", FStr msg);
                      ("original_apk", FPath apk_file) ]))
      [Enter "_extract_dex"; Enter "_odex_file";
       Spawn (odex_command self dex_path apk_file bootclasspath)]
| try_packaged w1 dex_path w2 d w3 r :
    _extract_dex self apk_file w = (w1, Return (dex_path, apk_file)) →
    _odex_file dex2oat self dex_path apk_file bootclasspath w1 = (w2, Return d) →
    d !! "status" = Some (FStr "success") →
    _package_odex apk_file (oat_output_path self apk_file)
      (vdex_output_path self apk_file) (output_dir_arg output_dir) w2 = (w3, r) →
    try_run apk_file bootclasspath output_dir w w3 r
      [Enter "_extract_dex"; Enter "_odex_file";
       Spawn (odex_command self dex_path apk_file bootclasspath);
       Enter "_package_odex"].

(** What the [except] clause of [odex_apk] makes of an outcome. *)
Definition odex_apk_except (apk_file : path) (r : outcome pydict) : outcome pydict :=
  match r with
  | Raise (FileNotFoundError _ as e) | Raise (ValueError _ as e) =>
      Return (dict [
        ("status", FStr "error");
        ("message", FStr (exn_str e));
        ("original_apk", FPath apk_file) ])
  | _ => r
  end.

(** What the [finally] clause does to the files: the scratch
    sub-directory goes when it is there. *)
Definition scratch_cleanup (apk_file : path) (fs : filesystem)
  : filesystem * outcome unit :=
  let temp_apk_dir := tmp_dir self // PyPath.stem apk_file in
  if FS.is_dir fs temp_apk_dir then FS.rmtree temp_apk_dir fs else (fs, Return tt).


End TryRuns.

(** What the repackaging stage ends in over this file system, which has no
    timestamps: one of its three results, none of which names the source
    archive, or an exception other than [FileNotFoundError] and
    [ValueError]. *)
Definition package_result (r : outcome pydict) : Prop :=
  match r with
  | Raise e => (∀ msg, e ≠ FileNotFoundError msg) ∧ (∀ msg, e ≠ ValueError msg)
  | Return d =>
      (∃ out, d = dict [
         ("status", FStr "success");
         ("message", FStr ("Odexed APK created at: " +:+ PyPath.str out));
         ("output_path", FPath out) ]) ∨
      (∃ msg, d = dict [ ("status", FStr "error"); ("message", FStr msg) ])
  end.

(** The archive name under which [_package_odex] stores an artifact
    (lines 177-178). *)
Definition shard_name (artifact : path) : string :=
  match first_char (PyPath.name artifact) with
  | Return shard => "oat/" +:+ shard +:+ "/" +:+ PyPath.name artifact
  | Raise _ => EmptyString
  end.

(** Entry fidelity of a written archive towards a source entry: same name,
    same compression method, and the payload the source archive gives for
    that name; the entry itself when the source names are pairwise
    distinct. *)
Definition carried_over (source written : list zentry) (e : zentry) : Prop :=
  (∃ c, c ∈ written ∧
        filename c = filename e ∧
        compress_type c = compress_type e ∧
        ZipFile.read source (filename e) = Return (payload c)) ∧
  (NoDup (ZipFile.namelist source) → e ∈ written).

Definition is_bytecode (e : zentry) : bool := String.eqb (filename e) "classes.dex".

(** The result of a strip that wrote [out] (lines 263 and 265). *)
Definition strip_result (apk_file out : path) (found_dex : bool) : pydict :=
  if negb found_dex
  then dict [
         ("status", FStr "warning");
         ("message", FStr ("No classes.dex found in " +:+ PyPath.str apk_file
                           +:+ ". Already deodexed?"));
         ("output_path", FPath out) ]
  else dict [
         ("status", FStr "success");
         ("message", FStr ("Attempted deodexed APK created at: "
                           +:+ PyPath.str out +:+ " (OAT/VDex removed)"));
         ("output_path", FPath out) ].


(** Launched with [argv], the compiler exits with status zero, leaves the
    two artifacts as regular files and touches nothing else. *)
Definition compiler_succeeds (dex2oat : list string → filesystem → filesystem * completed)
    (argv : list string) (oat vdex : path) : Prop :=
  ∀ fs, ∃ fs' err x y,
    dex2oat argv fs = (fs', Exited 0 err) ∧
    fs' !! oat = Some (File x) ∧ fs' !! vdex = Some (File y) ∧
    ∀ q, q ≠ oat → q ≠ vdex → fs' !! q = fs !! q.

Definition stored_file (fs : filesystem) (q : path) : bool :=
  match fs !! q with Some (File _) => true | _ => false end.

(** The non-empty prefixes of a path, shortest first. *)
Fixpoint prefixes_from (base todo : path) : list path :=
  match todo with
  | [] => []
  | c :: rest => (base ++ [c]) :: prefixes_from (base ++ [c]) rest
  end.

(** A name the operating system takes: it holds no NUL character, for
    which [mkdir] raises [ValueError]. *)
Definition nul_free (s : string) : Prop := PyStr.contains "000"%char s = false.

Global Instance nul_free_dec s : Decision (nul_free s).
Proof. unfold nul_free. apply _. Defined.

(** An ordinary base name: the scratch sub-directory it names is a proper
    child of the scratch root. *)
Definition ordinary_base (s : string) : Prop := s ≠ "" ∧ s ≠ "." ∧ s ≠ "..".

Global Instance ordinary_base_dec s : Decision (ordinary_base s).
Proof. unfold ordinary_base. apply _. Defined.

(** The batch of the failure-isolation property: a valid archive with a
    compiler that succeeds on it, an archive without bytecode, and a path
    that names no file, in a fresh scratch workspace. *)
Record isolation_batch
    (dex2oat : list string → filesystem → filesystem * completed)
    (self : OdexPatcherAdvanced) (fs : filesystem)
    (valid lacking missing : string)
    (bootclasspath : option (list string)) (output_dir : option dirarg)
    (es1 es2 : list zentry) : Prop := {
  (* a pool of one worker: the three runs follow each other *)
  ib_one_worker : num_threads self = 1;
  (* the files at the call: the scratch root is a directory with nothing
     below it *)
  ib_wf : wf_fs fs;
  ib_scratch : fs !! tmp_dir self = Some Dir;
  ib_scratch_empty :
    map_Forall (λ q _, tmp_dir self `prefix_of` q → q = tmp_dir self) fs;
  (* the three inputs *)
  ib_valid : fs !! PyPath.Path valid = Some (File (Zip es1));
  ib_bytecode : "classes.dex" ∈ ZipFile.namelist es1;
  ib_lacking : fs !! PyPath.Path lacking = Some (File (Zip es2));
  ib_no_bytecode : "classes.dex" ∉ ZipFile.namelist es2;
  ib_missing : FS.is_file fs (PyPath.Path missing) = false;
  ib_missing_lexical : ".." ∉ PyPath.Path missing;
  (* inputs and output directory lie outside the scratch root, and every
     input has a scratch sub-directory of its own below the scratch root *)
  ib_outside :
    Forall (λ p, ¬ tmp_dir self `prefix_of` p)
      [ PyPath.Path valid; PyPath.Path lacking; PyPath.Path missing;
        default (PyPath.Path ".") (output_dir_arg output_dir) ];
  ib_bases :
    Forall (λ p, ordinary_base (PyPath.stem p))
      [ PyPath.Path valid; PyPath.Path lacking; PyPath.Path missing ];
  (* the scratch sub-directory of the second archive is none of the
     artifact files that the first run leaves in the scratch root *)
  ib_scratch_free :
    PyPath.stem (PyPath.Path lacking) ≠ PyPath.stem (PyPath.Path valid) +:+ ".oat" ∧
    PyPath.stem (PyPath.Path lacking) ≠ PyPath.stem (PyPath.Path valid) +:+ ".vdex";
  (* the compiler, on the command of the first run *)
  ib_compiler :
    compiler_succeeds dex2oat
      (odex_command self
         (tmp_dir self // PyPath.stem (PyPath.Path valid) // "classes.dex")
         (PyPath.Path valid) bootclasspath)
      (oat_output_path self (PyPath.Path valid))
      (vdex_output_path self (PyPath.Path valid));
  (* the output directory can be made and the output archive written *)
  ib_outdir_lexical : ".." ∉ default (PyPath.Path ".") (output_dir_arg output_dir);
  ib_outdir_names :
    Forall nul_free (default (PyPath.Path ".") (output_dir_arg output_dir));
  ib_outdir_free :
    Forall (λ q, stored_file fs q = false)
      (prefixes_from [] (default (PyPath.Path ".") (output_dir_arg output_dir)));
  ib_output_free :
    stored_dir fs (default (PyPath.Path ".") (output_dir_arg output_dir)
                   // (PyPath.stem (PyPath.Path valid) +:+ "-odexed.apk")) = false;
  (* the output archive of the first run is none of the other inputs *)
  ib_output_fresh :
    Forall (λ p, p ≠ default (PyPath.Path ".") (output_dir_arg output_dir)
                     // (PyPath.stem (PyPath.Path valid) +:+ "-odexed.apk"))
      [ PyPath.Path lacking; PyPath.Path missing ]
}.

(** The two properties of a result dictionary that the statements use. *)
Definition has_status_and_message (d : pydict) : Prop :=
  is_Some (d !! "status") ∧ is_Some (d !! "message").

Definition names_no_source (d : pydict) : Prop :=
  d !! "original_apk" = None ∧ d !! "original_file" = None.

(** ** Construction *)

Section Construction.

(** The environment of the constructor: [os.access(p, os.X_OK)] and
    [shutil.which(name)]. *)
Variable access_x : path → bool.
Variable which : string → option string.

(** Lines 36-63; [if self.android_sdk_path:] holds for a non-empty
    string. *)
Definition _find_dex2oat (android_sdk_path : option string) : M string :=
  match android_sdk_path with
  | Some (String _ _ as sdk) =>
      let dex2oat_path := PyPath.Path sdk // "art" // "compiler" // "dex2oat" in
      is_file ← ask_files (λ fs, FS.is_file fs dex2oat_path);
      if (is_file : bool) && access_x dex2oat_path
      then mret (PyPath.str dex2oat_path)
      else raise (FileNotFoundError
                    ("`dex2oat` not found at expected location: "
                     +:+ PyPath.str dex2oat_path
                     +:+ ". Please ensure the Android SDK path is correct."))
  | _ =>
      let dex2oat_executable := "dex2oat" in
      match which dex2oat_executable with
      | Some _ => mret dex2oat_executable
      | None =>
          raise (FileNotFoundError
                   ("`dex2oat` not found in system's PATH. "
                    +:+ "Either add it to your PATH or provide the Android SDK path."))
      end
  end.

(** Lines 20-34. *)
Definition __init__ (sdk_path : option string) (threads : Z) (tmp : string)
  : M OdexPatcherAdvanced :=
  let tmp_path := PyPath.Path tmp in
  on_files (FS.mkdir_parents tmp_path);;
  found ← _find_dex2oat sdk_path;
  mret {| android_sdk_path := sdk_path;
          num_threads := threads;
          tmp_dir := tmp_path;
          dex2oat_path := found |}.

End Construction.

(** ** Further notions used by the statements *)


(** The status of a result. *)
Definition status_of (d : pydict) : option string :=
  match d !! "status" with
  | Some (FStr s) => Some s
  | _ => None
  end.

(** Whether a result has an [output_path]. *)
Definition has_output (d : pydict) : bool :=
  match d !! "output_path" with Some _ => true | None => false end.

(** Unfold the monad of the methods. *)
Ltac unfold_M :=
  unfold subprocess_run, with_zip_w, zip_open_r, try_except, try_finally, lift_outcome,
    ask_files, on_files, emit, raise, mbind, M_bind, mret, M_ret in *.

(** ** Strings *)


Lemma str_app_nil s : "" +:+ s = s.
Proof. reflexivity. Qed.

Lemma str_app_cons c s t : String c s +:+ t = String c (s +:+ t).
Proof. reflexivity. Qed.

Lemma str_contains_app c s t :
  PyStr.contains c (s +:+ t) = PyStr.contains c s || PyStr.contains c t.
Proof.
  induction s as [|a s IH]; [done|].
  rewrite str_app_cons. simpl. rewrite IH. by rewrite orb_assoc.
Qed.

Lemma str_length_app s t : String.length (s +:+ t) = (String.length s + String.length t)%nat.
Proof. induction s as [|a s IH]; [done|]. rewrite str_app_cons. simpl. by rewrite IH. Qed.

Lemma split_sep_free c s x : x ∈ PyStr.split c s → PyStr.contains c x = false.
Proof.
  revert x. induction s as [|a s IH]; intros x; simpl.
  - intros ->%list_elem_of_singleton. done.
  - destruct (Ascii.eqb a c) eqn:Hac.
    + intros [->|Hx]%elem_of_cons; [done|]. by apply IH.
    + destruct (PyStr.split c s) as [|w ws] eqn:Hs.
      * intros ->%list_elem_of_singleton. simpl. by rewrite Hac.
      * intros [->|Hx]%elem_of_cons.
        -- simpl. rewrite Hac. apply IH. left.
        -- apply IH. by right.
Qed.

Lemma split_of_sep_free c s : PyStr.contains c s = false → PyStr.split c s = [s].
Proof.
  induction s as [|a s IH]; [done|]. simpl.
  intros [Hac Hs]%orb_false_elim. rewrite Hac, (IH Hs). done.
Qed.

Lemma take_sep_free c n s :
  PyStr.contains c s = false → PyStr.contains c (String.substring 0 n s) = false.
Proof.
  revert n. induction s as [|a s IH]; intros [|n]; simpl; try done.
  intros [Hac Hs]%orb_false_elim. rewrite Hac. by apply IH.
Qed.

(** ** Paths *)

Lemma sep_free_not_anchor x : sep_free x → PyPath.is_anchor x = false.
Proof.
  destruct x as [|a x]; [done|]. unfold sep_free. simpl.
  intros [Ha _]%orb_false_elim. unfold PyPath.is_anchor, PyStr.startswith. simpl.
  destruct a as [[] [] [] [] [] [] [] []]; try done.
Qed.

Lemma sep_free_anchor_of x : sep_free x → PyPath.anchor_of x = [].
Proof.
  destruct x as [|a x]; [done|]. unfold sep_free. simpl.
  intros [Ha _]%orb_false_elim.
  destruct a as [[] [] [] [] [] [] [] []]; try done.
Qed.

Lemma Path_parts s x :
  x ∈ PyPath.Path s → PyPath.is_anchor x = true ∨ sep_free x.
Proof.
  unfold PyPath.Path. intros [Hx|Hx]%elem_of_app.
  - left. destruct s as [|a s]; [by apply elem_of_nil in Hx|].
    revert Hx. simpl.
    repeat (case_match; try (intros ?%elem_of_nil; done);
            try (intros ->%list_elem_of_singleton; done)).
  - right. apply list_elem_of_In, filter_In in Hx as [Hx _].
    apply list_elem_of_In in Hx. by eapply split_sep_free.
Qed.

Lemma last_elem_or_default (l : list string) d : List.last l d = d ∨ List.last l d ∈ l.
Proof.
  induction l as [|a l IH]; [by left|].
  destruct l as [|b l]; [right; simpl; left|].
  change (List.last (a :: b :: l) d) with (List.last (b :: l) d).
  destruct IH as [->|IH]; [by left|]. right. by right.
Qed.

Lemma name_sep_free s : sep_free (PyPath.name (PyPath.Path s)).
Proof.
  unfold PyPath.name.
  destruct (PyPath.is_anchor (List.last (PyPath.Path s) "")) eqn:Ha; [done|].
  destruct (last_elem_or_default (PyPath.Path s) "") as [->|Hin]; [done|].
  apply Path_parts in Hin as [Hin|Hin]; [congruence|done].
Qed.

Lemma stem_sep_free s : sep_free (PyPath.stem (PyPath.Path s)).
Proof.
  unfold PyPath.stem. pose proof (name_sep_free s) as Hn.
  case_match; [|done]. by apply take_sep_free.
Qed.

Lemma Path_of_name x :
  sep_free x → x ≠ "" → x ≠ "." → PyPath.Path x = [x].
Proof.
  intros Hx H0 H1. unfold PyPath.Path.
  rewrite sep_free_anchor_of, split_of_sep_free by done. simpl.
  unfold PyPath.keep_part.
  destruct (String.eqb_spec x ""), (String.eqb_spec x "."); done.
Qed.

Lemma joinpath_name p x :
  sep_free x → x ≠ "" → x ≠ "." → p // x = p ++ [x].
Proof.
  intros Hx H0 H1. unfold PyPath.joinpath. rewrite Path_of_name by done.
  simpl. by rewrite sep_free_not_anchor.
Qed.

Lemma joinpath_sep_free p x :
  sep_free x → p // x = p ∨ p // x = p ++ [x].
Proof.
  intros Hx.
  destruct (decide (x = "")) as [->|H0]; [left; unfold PyPath.joinpath; simpl; apply app_nil_r|].
  destruct (decide (x = ".")) as [->|H1]; [left; unfold PyPath.joinpath; simpl; apply app_nil_r|].
  right. by apply joinpath_name.
Qed.

Lemma with_suffix_name x ext :
  sep_free x → sep_free ext → (2 ≤ String.length ext)%nat →
  sep_free (x +:+ ext) ∧ x +:+ ext ≠ "" ∧ x +:+ ext ≠ ".".
Proof.
  intros Hx He Hl. split_and!.
  - unfold sep_free in *. by rewrite str_contains_app, Hx, He.
  - intros H. apply (f_equal String.length) in H. rewrite str_length_app in H. simpl in H. lia.
  - intros H. apply (f_equal String.length) in H. rewrite str_length_app in H. simpl in H. lia.
Qed.

(** ** The compile stage *)

Section Compile.

Variable dex2oat : list string → filesystem → filesystem * completed.
Variable self : OdexPatcherAdvanced.

Lemma oat_output_path_eq s :
  oat_output_path self (PyPath.Path s)
  = tmp_dir self ++ [PyPath.stem (PyPath.Path s) +:+ ".oat"].
Proof.
  unfold oat_output_path.
  destruct (with_suffix_name (PyPath.stem (PyPath.Path s)) ".oat") as (?&?&?);
    [apply stem_sep_free|done|simpl; lia|].
  by apply joinpath_name.
Qed.

Lemma vdex_output_path_eq s :
  vdex_output_path self (PyPath.Path s)
  = tmp_dir self ++ [PyPath.stem (PyPath.Path s) +:+ ".vdex"].
Proof.
  unfold vdex_output_path.
  destruct (with_suffix_name (PyPath.stem (PyPath.Path s)) ".vdex") as (?&?&?);
    [apply stem_sep_free|done|simpl; lia|].
  by apply joinpath_name.
Qed.

Lemma scratch_dir_cases s :
  tmp_dir self // PyPath.stem (PyPath.Path s) = tmp_dir self
  ∨ tmp_dir self // PyPath.stem (PyPath.Path s)
    = tmp_dir self ++ [PyPath.stem (PyPath.Path s)].
Proof. apply joinpath_sep_free, stem_sep_free. Qed.

Lemma not_below_scratch_dir s ext :
  (1 ≤ String.length ext)%nat →
  tmp_dir self // PyPath.stem (PyPath.Path s)
    `prefix_of` tmp_dir self ++ [PyPath.stem (PyPath.Path s) +:+ ext] →
  tmp_dir self // PyPath.stem (PyPath.Path s) = tmp_dir self.
Proof.
  intros Hlen Hpre. destruct (scratch_dir_cases s) as [->|Heq]; [done|].
  rewrite Heq in Hpre. apply prefix_app_inv in Hpre.
  destruct Hpre as [k Hk]. simplify_eq/=.
  apply (f_equal String.length) in H. rewrite str_length_app in H. lia.
Qed.

(** C9 (artifact paths).  For every input archive path the compile stage
    names its two artifacts [<base>.oat] and [<base>.vdex] directly under
    the scratch root; the run's own scratch sub-directory lies above them
    only when it is the scratch root itself; and two archives with the
    same base name get the same two artifact paths. *)
Theorem artifact_paths_under_scratch_root (apk_path : string) :
  let apk_file := PyPath.Path apk_path in
  let base := PyPath.stem apk_file in
  let oat := oat_output_path self apk_file in
  let vdex := vdex_output_path self apk_file in
  let scratch := tmp_dir self // base in
  (oat = tmp_dir self ++ [base +:+ ".oat"] ∧
   vdex = tmp_dir self ++ [base +:+ ".vdex"]) ∧
  (scratch `prefix_of` oat ∨ scratch `prefix_of` vdex → scratch = tmp_dir self) ∧
  (∀ other : string,
     PyPath.stem (PyPath.Path other) = base →
     oat_output_path self (PyPath.Path other) = oat ∧
     vdex_output_path self (PyPath.Path other) = vdex).
Proof.
  intros apk_file base oat vdex scratch.
  subst apk_file base oat vdex scratch. split_and!.
  - apply oat_output_path_eq.
  - apply vdex_output_path_eq.
  - rewrite oat_output_path_eq, vdex_output_path_eq.
    intros [H|H]; eapply not_below_scratch_dir; try exact H; simpl; lia.
  - intros other Hstem. unfold oat_output_path, vdex_output_path.
    by rewrite Hstem.
Qed.

Lemma boot_image_arg_fresh (s x y z : string) :
  "--boot-image=" +:+ s
    ∉ [ "--dex-file=" +:+ x; "--output-oat-file=" +:+ y; "--oat-file-format=vdex";
        "--output-vdex-file=" +:+ z; "--compiler-filter=speed" ].
Proof.
  intros Hin. unfold String.append in Hin. simpl in Hin.
  repeat (apply elem_of_cons in Hin as [Hin|Hin]; [congruence|]).
  by apply elem_of_nil in Hin.
Qed.

(** C8 (compiler argument contract).  Every call of the compile stage
    launches the compiler once, with an argument list that holds the dex
    input path, the oat output path, the vdex output path and the fixed
    ["speed"] compiler filter; the boot-image argument, the boot classpath
    entries joined with [":"], is in the list if and only if the boot
    classpath given is non-empty. *)
Theorem compiler_argument_contract
    (dex_path output_apk_path : path) (bootclasspath : option (list string)) (w : world) :
  let command := odex_command self dex_path output_apk_path bootclasspath in
  let entries := default [] bootclasspath in
  trace (_odex_file dex2oat self dex_path output_apk_path bootclasspath w).1
    = trace w ++ [Enter "_odex_file"; Spawn command] ∧
  ∃ args,
    command = dex2oat_path self :: args ∧
    "--dex-file=" +:+ PyPath.str dex_path ∈ args ∧
    "--output-oat-file=" +:+ PyPath.str (oat_output_path self output_apk_path) ∈ args ∧
    "--output-vdex-file=" +:+ PyPath.str (vdex_output_path self output_apk_path) ∈ args ∧
    "--compiler-filter=speed" ∈ args ∧
    ("--boot-image=" +:+ PyStr.join ":" entries ∈ args ↔ entries ≠ []).
Proof.
  intros command entries. split.
  - unfold _odex_file, subprocess_run, emit, on_files, mbind, M_bind, mret, M_ret, raise.
    simpl. destruct (dex2oat _ _) as [fs' c]. simpl.
    rewrite <- app_assoc. simpl.
    destruct c as [[| |] err|[]]; reflexivity.
  - eexists. split; [reflexivity|]. split_and!; [set_solver..|].
    subst entries. destruct bootclasspath as [[|b bs]|]; simpl.
    + split; [|done]. intros Hin. by apply boot_image_arg_fresh in Hin.
    + split; [done|]. intros _. set_solver.
    + split; [|done]. intros Hin. by apply boot_image_arg_fresh in Hin.
Qed.

End Compile.

(** ** The file system *)

Lemma stat_snoc fs p c :
  FS.stat fs (p ++ [c]) =
    if String.eqb c ".." then
      match FS.stat fs p with Some Dir => Some Dir | _ => None end
    else fs !! (p ++ [c]).
Proof.
  unfold FS.stat. rewrite rev_app_distr. simpl.
  destruct (String.eqb c ".."); [done|].
  by rewrite rev_involutive.
Qed.

Lemma stat_nil fs : FS.stat fs [] = Some Dir.
Proof. done. Qed.

Lemma unremovable_false_snoc p :
  FS.unremovable p = false → ∃ q c, p = q ++ [c] ∧ c ≠ "..".
Proof.
  unfold FS.unremovable. destruct (List.rev p) as [|c rp] eqn:Hrev; [done|].
  intros [Hc _]%orb_false_elim. exists (List.rev rp), c. split.
  - rewrite <- (rev_involutive p), Hrev. done.
  - by apply String.eqb_neq.
Qed.

Lemma stat_plain fs p c : c ≠ ".." → FS.stat fs (p ++ [c]) = fs !! (p ++ [c]).
Proof. intros Hc. rewrite stat_snoc. by apply String.eqb_neq in Hc as ->. Qed.

Lemma stat_removable fs p : FS.unremovable p = false → FS.stat fs p = fs !! p.
Proof. intros (q & c & -> & Hc)%unremovable_false_snoc. by apply stat_plain. Qed.


Lemma target_removable p : FS.unremovable p = false → FS.target p = p.
Proof.
  intros (q & c & -> & Hc)%unremovable_false_snoc.
  unfold FS.target. rewrite rev_app_distr. simpl.
  apply String.eqb_neq in Hc as ->. simpl. by rewrite rev_involutive.
Qed.

Lemma rmtree_removable fs p :
  FS.is_dir fs p = true → FS.unremovable p = false →
  FS.rmtree p fs = (filter (λ kv, ¬ FS.under p kv.1) fs, Return tt).
Proof.
  unfold FS.is_dir, FS.rmtree. intros Hd Hr.
  destruct (FS.stat fs p) as [[]|]; try done.
  by rewrite Hr, target_removable.
Qed.

Lemma lookup_rmtree_under (fs : filesystem) p q :
  FS.under p q → filter (λ kv, ¬ FS.under p kv.1) fs !! q = None.
Proof. intros Hu. apply map_lookup_filter_None. right. intros x _ Hn. by apply Hn. Qed.





Lemma mkdir_from_target todo : ".." ∉ todo → ∀ base fs,
  (FS.mkdir_from fs base todo).2 = Return tt → todo ≠ [] →
  (FS.mkdir_from fs base todo).1 !! (base ++ todo) = Some Dir.
Proof.
  induction todo as [|c rest IH]; intros Hlex base fs Hok Hne; [done|].
  apply not_elem_of_cons in Hlex as [Hc Hlex]. specialize (IH Hlex).
  revert Hok. simpl. rewrite stat_plain by done.
  destruct (fs !! (base ++ [c])) as [[d|]|] eqn:Hst; simpl; [done| |];
    intros Hok; (destruct rest as [|c' rest];
      [simpl; by rewrite ?lookup_insert_eq
      |replace (base ++ c :: c' :: rest) with ((base ++ [c]) ++ c' :: rest)
         by (by rewrite <- app_assoc);
       by apply IH]).
Qed.




Lemma under_refl p q : p ≠ [] → p `prefix_of` q → FS.under p q.
Proof. by split. Qed.

Section Cleanup.

Variable self : OdexPatcherAdvanced.


End Cleanup.

Lemma stat_File_plain fs p d :
  FS.stat fs p = Some (File d) → ∃ q c, p = q ++ [c] ∧ c ≠ "..".
Proof.
  destruct p as [|c p _] using rev_ind; [done|].
  rewrite stat_snoc. destruct (String.eqb_spec c "..") as [->|Hc].
  - by repeat case_match.
  - intros _. by exists p, c.
Qed.

(** Creating directories leaves every regular file as it was. *)
Lemma mkdir_from_keeps_file todo : ∀ base fs p d,
  FS.stat fs p = Some (File d) →
  FS.stat (FS.mkdir_from fs base todo).1 p = Some (File d).
Proof.
  induction todo as [|c rest IH]; intros base fs p d Hp; simpl; [done|].
  destruct (FS.stat fs (base ++ [c])) as [[d'|]|] eqn:Hst; simpl; [done|by apply IH|].
  apply IH. destruct (stat_File_plain _ _ _ Hp) as (q & x & -> & Hx).
  rewrite stat_plain in * by done.
  rewrite lookup_insert_ne; [done|]. intros Heq. rewrite Heq in Hst.
  rewrite stat_plain in Hst by done. congruence.
Qed.

Lemma mkdir_from_raises todo : ∀ base fs,
  (FS.mkdir_from fs base todo).2 = Return tt ∨
  (FS.mkdir_from fs base todo).2 = Raise FileExistsError ∨
  (FS.mkdir_from fs base todo).2 = Raise NotADirectoryError.
Proof.
  induction todo as [|c rest IH]; intros base fs; simpl; [by left|].
  destruct (FS.stat fs (base ++ [c])) as [[d|]|]; simpl; [|apply IH..].
  destruct rest; auto.
Qed.

Lemma mkdir_parents_raises p fs :
  match (FS.mkdir_parents p fs).2 with
  | Return _ => True
  | Raise e => e = FileExistsError ∨ e = NotADirectoryError
  end.
Proof.
  unfold FS.mkdir_parents.
  destruct (mkdir_from_raises p [] fs) as [->|[->| ->]]; auto.
Qed.

(** ** The stages of an odex run *)

Section Stages.

Variable dex2oat : list string → filesystem → filesystem * completed.
Variable self : OdexPatcherAdvanced.


(** [_extract_dex] leaves one [Enter] event and no other. *)
Lemma extract_dex_trace apk_file w :
  trace (_extract_dex self apk_file w).1 = trace w ++ [Enter "_extract_dex"].
Proof.
  unfold _extract_dex. unfold_M. simpl.
  destruct (FS.is_file _ _); simpl; [|done].
  destruct (FS.mkdir_parents _ _) as [fs1 [[]|e]]; simpl; [|done].
  destruct (ZipFile.open_r fs1 apk_file) as [es|e]; simpl; [|by destruct e].
  case_bool_decide; simpl; [|done].
  destruct (ZipFile.read es "classes.dex") as [src|e]; simpl; [|by destruct e].
  destruct (FS.write_file _ _ _) as [fs2 [[]|e]]; simpl; [done|by destruct e].
Qed.



Lemma odex_file_run dex_path apk bootclasspath w :
  ∃ fs' c r,
    dex2oat (odex_command self dex_path apk bootclasspath) (files w) = (fs', c) ∧
    _odex_file dex2oat self dex_path apk bootclasspath w
    = (World fs' (trace w ++ [Enter "_odex_file";
                              Spawn (odex_command self dex_path apk bootclasspath)]), r) ∧
    ((∃ err, c = Exited 0 err ∧
        r = Return (dict [
          ("status", FStr "success");
          ("message", FStr ("Successfully odexed " +:+ PyPath.name dex_path));
          ("oat_path", FPath (oat_output_path self apk));
          ("vdex_path", FPath (vdex_output_path self apk));
          ("original_apk", FPath apk) ])) ∨
     (∃ msg, r = Return (dict [
          ("status", FStr "error");
          ("message", FStr msg);
          ("original_apk", FPath apk) ])) ∨
     (∃ e, r = Raise e)).
Proof.
  unfold _odex_file. unfold_M. simpl.
  destruct (dex2oat _ _) as [fs' c]. simpl. rewrite <- app_assoc. simpl.
  destruct c as [[| |] err|[]]; eexists _, _, _; (split; [reflexivity|]);
    (split; [reflexivity|]); eauto 10.
Qed.

Lemma open_r_raises fs p e msg : ZipFile.open_r fs p = Raise e → e ≠ ValueError msg.
Proof. unfold ZipFile.open_r. repeat case_match; congruence. Qed.

Lemma write_file_raises p d fs e msg :
  (FS.write_file p d fs).2 = Raise e → e ≠ ValueError msg.
Proof. unfold FS.write_file. repeat case_match; simpl; congruence. Qed.

Lemma package_loop_raises source items : ∀ target e msg,
  (package_loop source items target).2 = Raise e → e ≠ ValueError msg.
Proof.
  induction items as [|item rest IH]; intros target e msg; simpl; [done|].
  unfold ZipFile.read. destruct (ZipFile.getinfo _ _); simpl; [|congruence].
  destruct (negb _); apply IH.
Qed.

Lemma zip_write_raises fs p arcname e msg :
  ZipFile.write fs p arcname = Raise e → e ≠ ValueError msg.
Proof.
  unfold ZipFile.write, ZipFile.from_file_arcname. repeat case_match; congruence.
Qed.

Lemma package_body_raises source oat vdex fs e msg :
  (package_body source oat vdex fs).2 = Raise e → e ≠ ValueError msg.
Proof.
  unfold package_body.
  pose proof (package_loop_raises source source [] e msg) as Hloop.
  destruct (package_loop _ _ _) as [copied [[]|e']]; simpl in *; [|done].
  unfold first_char.
  destruct (PyPath.name oat); simpl; [congruence|].
  destruct (PyPath.name vdex); simpl; [congruence|].
  destruct (ZipFile.write fs oat _) as [e1|e'] eqn:H1; simpl.
  - destruct (ZipFile.write fs vdex _) as [e2|e'] eqn:H2; simpl; [done|].
    intros [= ->]. by eapply zip_write_raises.
  - intros [= ->]. by eapply zip_write_raises.
Qed.

Lemma package_odex_run src oat vdex od w :
  ∃ fs' r,
    _package_odex src oat vdex od w
    = (World fs' (trace w ++ [Enter "_package_odex"]), r) ∧ package_result r.
Proof.
  unfold _package_odex. unfold_M. simpl.
  match goal with
  | |- context [FS.mkdir_parents ?p ?fs] => pose proof (mkdir_parents_raises p fs) as Hk
  end.
  destruct (FS.mkdir_parents _ _) as [fs1 [[]|e]]; simpl in *.
  2:{ eexists _, _. split; [reflexivity|]. simpl.
      destruct Hk as [-> | ->]; split; intros ?; congruence. }
  destruct (ZipFile.open_r fs1 src) as [es|e] eqn:Hopen; simpl.
  - match goal with
    | |- context [FS.write_file ?p ?d ?fs] =>
        pose proof (λ e msg, write_file_raises p d fs e msg) as Hw
    end.
    destruct (FS.write_file _ _ _) as [fs2 [[]|e]]; simpl in *.
    + pose proof (λ e msg, package_body_raises es oat vdex fs2 e msg) as Hb.
      destruct (package_body _ _ _ _) as [entries [[]|e]]; simpl in *.
      * eexists _, _. split; [reflexivity|]. left. by eexists.
      * destruct e; eexists _, _; (split; [reflexivity|]); simpl; eauto;
          split; intros ?; try congruence; try (by eapply Hb).
    + destruct e; eexists _, _; (split; [reflexivity|]); simpl; eauto;
        split; intros ?; try congruence; try (by eapply Hw).
  - destruct e; eexists _, _; (split; [reflexivity|]); simpl; eauto;
      split; intros ?; try congruence; try (by eapply open_r_raises).
Qed.

Lemma extract_dex_returns apk_file w w1 dex_path original :
  _extract_dex self apk_file w = (w1, Return (dex_path, original)) →
  original = apk_file ∧
  dex_path = tmp_dir self // PyPath.stem apk_file // "classes.dex".
Proof.
  unfold _extract_dex. unfold_M. simpl.
  destruct (FS.is_file _ _); simpl; [|done].
  destruct (FS.mkdir_parents _ _) as [fs1 [[]|e]]; simpl; [|done].
  destruct (ZipFile.open_r fs1 apk_file) as [es|e]; simpl; [|by destruct e].
  case_bool_decide; simpl; [|done].
  destruct (ZipFile.read es "classes.dex") as [src|e]; simpl; [|by destruct e].
  destruct (FS.write_file _ _ _) as [fs2 [[]|e]]; simpl; [|by destruct e].
  by intros [= <- <- <-].
Qed.

Lemma odex_apk_try_run apk_file bootclasspath output_dir (locals : frame) w :
  locals !! "oat_path" = None → locals !! "vdex_path" = None →
  ∃ w1 (locals' : frame) r t,
    odex_apk_try dex2oat self apk_file bootclasspath output_dir locals w
    = (w1, (locals', r)) ∧
    locals' !! "oat_path" = None ∧ locals' !! "vdex_path" = None ∧
    trace w1 = trace w ++ t ∧
    try_run dex2oat self apk_file bootclasspath output_dir w w1 r t.
Proof.
  intros Hoat Hvdex. unfold odex_apk_try.
  pose proof (extract_dex_trace apk_file w) as Ht1.
  destruct (_extract_dex self apk_file w) as [w1 [[dex_path original]|e]] eqn:Hex;
    simpl in Ht1.
  2:{ eexists _, _, _, _. split; [reflexivity|]. split_and!; try done.
      by constructor. }
  apply extract_dex_returns in Hex as Hret. destruct Hret as [-> Hdex].
  destruct (odex_file_run dex_path apk_file bootclasspath w1)
    as (fs' & c & r & Hrun & Hod & Hr).
  rewrite Hod.
  assert (trace w ++ [Enter "_extract_dex"; Enter "_odex_file";
                      Spawn (odex_command self dex_path apk_file bootclasspath)]
          = trace w1 ++ [Enter "_odex_file";
                         Spawn (odex_command self dex_path apk_file bootclasspath)])
    as Ht2 by (by rewrite Ht1, <- app_assoc).
  destruct Hr as [(err & -> & ->)|[(msg & ->)|(e & ->)]].
  - unfold status_is_success. unfold_M.
    replace (dict _ !! "status") with (Some (FStr "success")) by (by vm_compute).
    cbn [String.eqb Ascii.eqb Bool.eqb].
    unfold dict_path. unfold_M.
    replace (dict _ !! "original_apk") with (Some (FPath apk_file)) by (by vm_compute).
    replace (dict _ !! "oat_path")
      with (Some (FPath (oat_output_path self apk_file))) by (by vm_compute).
    replace (dict _ !! "vdex_path")
      with (Some (FPath (vdex_output_path self apk_file))) by (by vm_compute).
    destruct (package_odex_run apk_file (oat_output_path self apk_file)
                (vdex_output_path self apk_file) (output_dir_arg output_dir)
                (World fs' (trace w1 ++ [Enter "_odex_file";
                   Spawn (odex_command self dex_path apk_file bootclasspath)])))
      as (fs3 & r & Hpk & _).
    rewrite Hpk. cbn [trace] in *.
    destruct r as [d|e]; eexists _, _, _, _; (split; [reflexivity|]);
      (split_and!; [by rewrite ?lookup_insert_ne by done
                   |by rewrite ?lookup_insert_ne by done
                   |cbn [trace]; by rewrite <- Ht2, <- app_assoc
                   |eapply try_packaged; [exact Hex|exact Hod|by vm_compute|exact Hpk]]).
  - unfold status_is_success. unfold_M.
    replace (dict _ !! "status") with (Some (FStr "error")) by (by vm_compute).
    cbn [String.eqb Ascii.eqb Bool.eqb].
    eexists _, _, _, _. split; [reflexivity|].
    split_and!; [by rewrite ?lookup_insert_ne by done
                |by rewrite ?lookup_insert_ne by done
                |cbn [trace]; by rewrite <- Ht2
                |eapply try_compile_failed; [exact Hex|exact Hod]].
  - eexists _, _, _, _. split; [reflexivity|].
    split_and!; [by rewrite ?lookup_insert_ne by done
                |by rewrite ?lookup_insert_ne by done
                |cbn [trace]; by rewrite <- Ht2
                |eapply try_compile_raised; [exact Hex|exact Hod]].
Qed.

(** The [finally] block never finds the artifact paths among the local
    variables: all it does is remove the scratch sub-directory. *)
Lemma odex_apk_finally_run apk_file (locals : frame) w :
  locals !! "oat_path" = None → locals !! "vdex_path" = None →
  odex_apk_finally self apk_file locals w
  = let '(fs', r) := scratch_cleanup self apk_file (files w) in
    (World fs' (trace w), r).
Proof.
  intros Hoat Hvdex. unfold odex_apk_finally, remove_local, scratch_cleanup.
  rewrite !lookup_insert_ne by done. rewrite Hoat, Hvdex. unfold_M. simpl.
  destruct (FS.is_dir _ _); simpl; [|by destruct w].
  by destruct (FS.rmtree _ _) as [fs' [[]|e]].
Qed.

Lemma odex_apk_run apk_path bootclasspath output_dir w :
  ∃ w1 r t,
    try_run dex2oat self (PyPath.Path apk_path) bootclasspath output_dir w w1 r t ∧
    trace w1 = trace w ++ t ∧
    odex_apk dex2oat self apk_path bootclasspath output_dir w
    = match scratch_cleanup self (PyPath.Path apk_path) (files w1) with
      | (fs2, Return _) =>
          (World fs2 (trace w1), odex_apk_except (PyPath.Path apk_path) r)
      | (fs2, Raise e) => (World fs2 (trace w1), Raise e)
      end.
Proof.
  unfold odex_apk.
  edestruct (odex_apk_try_run (PyPath.Path apk_path) bootclasspath output_dir)
    as (w1 & locals' & r & t & Htry & Hoat & Hvdex & Ht & Hrun); last first.
  { rewrite Htry. exists w1, r, t. split_and!; try done.
    rewrite odex_apk_finally_run by done.
    destruct (scratch_cleanup _ _ _) as [fs2 [[]|e]]; [|done].
    by destruct r as [d|[]]. }
  - by rewrite !lookup_insert_ne by done.
  - by rewrite !lookup_insert_ne by done.
Qed.





End Stages.

(** ** Runs of the concrete installation *)



Lemma artifact_paths_witness :
  oat_output_path Demo.patcher (PyPath.Path "b/app.zip")
  = ["tmp_odex_patcher"; "app.oat"] ∧
  vdex_output_path Demo.patcher (PyPath.Path "b/app.zip")
  = ["tmp_odex_patcher"; "app.vdex"].
Proof.
  destruct (artifact_paths_under_scratch_root Demo.patcher "a/app.apk")
    as ((Hoat & Hvdex) & _ & Hsame).
  destruct (Hsame "b/app.zip") as [-> ->]; [vm_compute; reflexivity|].
  split; [exact Hoat|exact Hvdex].
Defined.

(** C1 (cleanup after a run).  On the valid archive [app.apk], with a
    compiler that writes both artifacts, [odex_apk] returns the success
    result and its scratch sub-directory is gone, but the two artifact
    files [app.oat] and [app.vdex] are still regular files under the scratch
    root: the [finally] block looks for the names [oat_path] and
    [vdex_path] among the local variables, where they are never bound. *)
Theorem odex_apk_leaves_compiled_artifacts :
  let run := odex_apk Demo.dex2oat Demo.patcher "app.apk" None (Some (DStr "out"))
               Demo.world in
  run.2 = Return (dict [ ("status", FStr "success");
                         ("message", FStr "Odexed APK created at: out/app-odexed.apk");
                         ("output_path", FPath ["out"; "app-odexed.apk"]) ]) ∧
  FS.stat (files run.1) ["tmp_odex_patcher"; "app"] = None ∧
  FS.stat (files run.1) ["tmp_odex_patcher"; "app.oat"]
    = Some (File (Blob [x6f; x61; x74])) ∧
  FS.stat (files run.1) ["tmp_odex_patcher"; "app.vdex"]
    = Some (File (Blob [x76; x64])).
Proof. intros run. split_and!; vm_compute; reflexivity. Qed.

(** C6 (strip warning path).  On the valid archive [lib.apk], which has no
    [classes.dex], [deodex_apk] called with the output directory ["out"]
    given as a string ends in [AttributeError] instead of a warning result,
    and neither the output directory nor the filtered archive is written:
    [mkdir] is called on the string itself. *)
Theorem deodex_apk_rejects_str_output_dir :
  let run := deodex_apk "lib.apk" (Some (DStr "out")) Demo.world in
  FS.stat (files Demo.world) ["lib.apk"] = Some (File (Zip Demo.lib_entries)) ∧
  ("classes.dex" ∉ ZipFile.namelist Demo.lib_entries) ∧
  run.2 = Raise (AttributeError "'str' object has no attribute 'mkdir'") ∧
  FS.stat (files run.1) ["out"] = None ∧
  FS.stat (files run.1) ["out"; "lib-deodexed.apk"] = None.
Proof.
  intros run. split_and!; try (vm_compute; reflexivity).
  apply (bool_decide_eq_false_1 _). vm_compute. reflexivity.
Qed.

(** C2, as stated, fails on a successful odex run. *)
Lemma odex_success_result_lacks_source_path :
  let run := odex_apk Demo.dex2oat Demo.patcher "app.apk" None (Some (DStr "out"))
               Demo.world in
  let d := dict [ ("status", FStr "success");
                  ("message", FStr "Odexed APK created at: out/app-odexed.apk");
                  ("output_path", FPath ["out"; "app-odexed.apk"]) ] in
  run.2 = Return d ∧
  Forall (λ kv, kv.2 ≠ FPath (PyPath.Path "app.apk") ∧ kv.2 ≠ FStr "app.apk") d.
Proof.
  intros run d. split; [vm_compute; reflexivity|].
  apply (bool_decide_eq_true_1 _). vm_compute. reflexivity.
Qed.


(** C4 (entry fidelity).  On the archive [dup.apk], which holds two
    entries named [res/a], [deodex_apk] copies both (neither is excluded)
    but writes the first with the payload of the second: the loop reads
    the payload by name, and an archive gives the last entry recorded
    under a name.  The first entry is not in the output archive. *)
Theorem strip_rereads_duplicate_names :
  let run := deodex_apk "dup.apk" None Demo.world in
  let first := ZEntry "res/a" ZIP_STORED (Blob [x01]) in
  FS.stat (files Demo.world) ["dup.apk"] = Some (File (Zip Demo.dup_entries)) ∧
  (first ∈ Demo.dup_entries) ∧
  kept_by_strip first = true ∧
  files run.1 !! ["dup-deodexed.apk"]
  = Some (File (Zip [ ZEntry "res/a" ZIP_STORED (Blob [x02]);
                      ZEntry "res/a" ZIP_DEFLATED (Blob [x02]) ])) ∧
  first ∉ [ ZEntry "res/a" ZIP_STORED (Blob [x02]);
            ZEntry "res/a" ZIP_DEFLATED (Blob [x02]) ].
Proof.
  intros run first. split_and!.
  - vm_compute. reflexivity.
  - left.
  - reflexivity.
  - vm_compute. reflexivity.
  - intros Hin. repeat (apply elem_of_cons in Hin as [Hin|Hin]; [discriminate Hin|]).
    by apply elem_of_nil in Hin.
Qed.


(** ** The fields of the results *)

Ltac dict_fields :=
  unfold has_status_and_message, names_no_source, is_Some, invalid_operation,
    strip_result, dict, lookup, pydict_lookup;
  cbn;
  repeat match goal with
         | |- _ ∧ _ => split
         | |- ∃ _, _ => eexists
         end;
  reflexivity.

Section Results.

Variable dex2oat : list string → filesystem → filesystem * completed.
Variable self : OdexPatcherAdvanced.

Lemma deodex_apk_result apk_path output_dir w w' d :
  deodex_apk apk_path output_dir w = (w', Return d) →
  has_status_and_message d ∧ names_no_source d.
Proof.
  unfold deodex_apk. unfold_M. simpl.
  destruct (FS.is_file _ _); simpl; [|intros [= <- <-]; dict_fields].
  destruct output_dir as [[s|p]|]; simpl; [done|..].
  - destruct (FS.mkdir_parents _ _) as [fs1 [[]|e]]; simpl; [|done].
    destruct (ZipFile.open_r fs1 _) as [es|e]; simpl;
      [|destruct e; try done; intros [= <- <-]; dict_fields].
    destruct (FS.write_file _ _ _) as [fs2 [[]|e]]; simpl;
      [|destruct e; try done; intros [= <- <-]; dict_fields].
    destruct (deodex_loop _ _ _ _) as [entries [[|]|e]]; simpl;
      [..|destruct e; try done]; intros [= <- <-]; dict_fields.
  - destruct (ZipFile.open_r _ _) as [es|e]; simpl;
      [|destruct e; try done; intros [= <- <-]; dict_fields].
    destruct (FS.write_file _ _ _) as [fs2 [[]|e]]; simpl;
      [|destruct e; try done; intros [= <- <-]; dict_fields].
    destruct (deodex_loop _ _ _ _) as [entries [[|]|e]]; simpl;
      [..|destruct e; try done]; intros [= <- <-]; dict_fields.
Qed.

Lemma package_odex_result src oat vdex od w w' d :
  _package_odex src oat vdex od w = (w', Return d) →
  has_status_and_message d ∧ names_no_source d.
Proof.
  intros Hpk.
  destruct (package_odex_run src oat vdex od w) as (fs' & r & Hpk' & Hres).
  rewrite Hpk in Hpk'. simplify_eq/=.
  destruct Hres as [[out ->]|[msg ->]]; dict_fields.
Qed.

(** A result of an odex run is either an error result that names the
    source, or a result that the repackager returned.  The first case
    covers every exception that the [except] clause of [odex_apk] turns
    into a result, whichever stage raised it. *)
Lemma odex_apk_result apk_path bootclasspath output_dir w w' d :
  odex_apk dex2oat self apk_path bootclasspath output_dir w = (w', Return d) →
  has_status_and_message d ∧ d !! "original_file" = None ∧
  ((d !! "original_apk" = Some (FPath (PyPath.Path apk_path)) ∧
    d !! "status" = Some (FStr "error")) ∨
   (d !! "original_apk" = None ∧
    ∃ w2, (_package_odex (PyPath.Path apk_path)
             (oat_output_path self (PyPath.Path apk_path))
             (vdex_output_path self (PyPath.Path apk_path))
             (output_dir_arg output_dir) w2).2 = Return d)).
Proof.
  destruct (odex_apk_run dex2oat self apk_path bootclasspath output_dir w)
    as (w1 & r & t & Hrun & Ht & ->).
  destruct (scratch_cleanup _ _ _) as [fs2 [[]|e]]; [|done].
  intros [= <- Hd].
  destruct Hrun as [w1 e Hex|w1 ? ? e Hex Hod|w1 ? ? msg Hex Hod
                   |w1 dex_path w2 d0 w3 r Hex Hod Hst Hpk].
  - destruct e; simplify_eq/=; (split_and!; [dict_fields..|left; dict_fields]).
  - destruct e; simplify_eq/=; (split_and!; [dict_fields..|left; dict_fields]).
  - simplify_eq/=. split_and!; [dict_fields..|left; dict_fields].
  - destruct r as [d'|e]; simpl in Hd.
    + simplify_eq.
      destruct (package_odex_result _ _ _ _ _ _ _ Hpk) as (Hsm & Hapk & Hfile).
      split_and!; [done..|]. right. split; [done|].
      exists w2. by rewrite Hpk.
    + destruct e; simplify_eq/=; (split_and!; [dict_fields..|left; dict_fields]).
Qed.

Lemma run_pool_gather tasks : ∀ w w' finished acc rs,
  run_pool tasks w = (w', finished) → gather finished acc = Return rs →
  ∃ ds, rs = acc ++ ds ∧
        Forall2 (λ (t : M pydict) d, ∃ w1 w2, t w1 = (w2, Return d)) tasks ds.
Proof.
  induction tasks as [|t rest IH]; intros w w' finished acc rs; simpl.
  - intros [= <- <-] [= <-]. exists []. by rewrite app_nil_r.
  - destruct (t w) as [w1 r] eqn:Ht.
    destruct (run_pool rest w1) as [w2 rs'] eqn:Hrest.
    intros [= <- <-]. destruct r as [d|e]; simpl; [|done].
    intros Hg. destruct (IH _ _ _ _ _ Hrest Hg) as (ds & -> & Hds).
    exists (d :: ds). split; [by rewrite <- app_assoc|].
    constructor; [by eexists _, _|done].
Qed.

(** The pool is made before any input is looked at. *)
Lemma process_files_pool file_paths operation bootclasspath output_dir w :
  0 < num_threads self →
  process_files dex2oat self file_paths operation bootclasspath output_dir w
  = let submitted :=
      List.map (λ fp, (fp, task_of dex2oat self operation bootclasspath output_dir fp))
        file_paths in
    let results :=
      omap (λ '(fp, t), match t with
                        | None => Some (invalid_operation operation fp)
                        | Some _ => None
                        end) submitted in
    let '(w', finished) := run_pool (omap snd submitted) w in
    (w', gather finished results).
Proof.
  intros Hn. unfold process_files.
  destruct (Z.leb_spec (num_threads self) 0); [lia|done].
Qed.

Lemma process_files_no_pool file_paths operation bootclasspath output_dir w :
  num_threads self ≤ 0 →
  process_files dex2oat self file_paths operation bootclasspath output_dir w
  = (w, Raise (ValueError "max_workers must be greater than 0")).
Proof.
  intros Hn. unfold process_files.
  destruct (Z.leb_spec (num_threads self) 0); [done|lia].
Qed.

Lemma process_files_results file_paths operation bootclasspath output_dir w w' rs :
  process_files dex2oat self file_paths operation bootclasspath output_dir w
  = (w', Return rs) →
  Forall (λ d, ∃ fp, fp ∈ file_paths ∧
    ((operation = "odex" ∧
      ∃ w1 w2, odex_apk dex2oat self fp bootclasspath output_dir w1 = (w2, Return d)) ∨
     (operation = "deodex" ∧
      ∃ w1 w2, deodex_apk fp output_dir w1 = (w2, Return d)) ∨
     (operation ≠ "odex" ∧ operation ≠ "deodex" ∧
      d = invalid_operation operation fp))) rs.
Proof.
  unfold process_files, task_of.
  destruct (num_threads self <=? 0); [done|].
  destruct (String.eqb_spec operation "odex") as [->|Hodex];
    [|destruct (String.eqb_spec operation "deodex") as [->|Hdeodex]].
  - set (f := λ fp, odex_apk dex2oat self fp bootclasspath output_dir).
    assert (∀ l, omap snd (List.map (λ fp, (fp, Some (f fp))) l) = List.map f l) as ->
      by (induction l as [|? ? IHl]; [done|simpl; try f_equal; exact IHl]).
    assert (∀ l, omap (λ '(fp, t), match t : option (M pydict) with
                                    | None => Some (invalid_operation "odex" fp)
                                    | Some _ => None
                                    end) (List.map (λ fp, (fp, Some (f fp))) l) = []) as ->
      by (induction l as [|? ? IHl]; [done|simpl; try f_equal; exact IHl]).
    destruct (run_pool _ _) as [w1 finished] eqn:Hpool. intros [= <- Hg].
    destruct (run_pool_gather _ _ _ _ _ _ Hpool Hg) as (ds & -> & Hds).
    simpl. clear Hpool Hg. revert ds Hds.
    induction file_paths as [|fp l IH]; intros ds Hds; simpl in Hds.
    + apply Forall2_nil_inv_l in Hds as ->. constructor.
    + apply Forall2_cons_inv_l in Hds as (d & ds' & Hd & Hds' & ->).
      constructor.
      * exists fp. split; [left|]. left. done.
      * eapply Forall_impl; [by apply IH|].
        intros d' (fp' & Hin & H). exists fp'. split; [by right|done].
  - set (f := λ fp, deodex_apk fp output_dir).
    assert (∀ l, omap snd (List.map (λ fp, (fp, Some (f fp))) l) = List.map f l) as ->
      by (induction l as [|? ? IHl]; [done|simpl; try f_equal; exact IHl]).
    assert (∀ l, omap (λ '(fp, t), match t : option (M pydict) with
                                    | None => Some (invalid_operation "deodex" fp)
                                    | Some _ => None
                                    end) (List.map (λ fp, (fp, Some (f fp))) l) = []) as ->
      by (induction l as [|? ? IHl]; [done|simpl; try f_equal; exact IHl]).
    destruct (run_pool _ _) as [w1 finished] eqn:Hpool. intros [= <- Hg].
    destruct (run_pool_gather _ _ _ _ _ _ Hpool Hg) as (ds & -> & Hds).
    simpl. clear Hpool Hg. revert ds Hds.
    induction file_paths as [|fp l IH]; intros ds Hds; simpl in Hds.
    + apply Forall2_nil_inv_l in Hds as ->. constructor.
    + apply Forall2_cons_inv_l in Hds as (d & ds' & Hd & Hds' & ->).
      constructor.
      * exists fp. split; [left|]. right. left. done.
      * eapply Forall_impl; [by apply IH|].
        intros d' (fp' & Hin & H). exists fp'. split; [by right|done].
  - assert (∀ l, omap snd (List.map (λ fp, (fp, @None (M pydict))) l) = []) as ->
      by (induction l as [|? ? IHl]; [done|simpl; try f_equal; exact IHl]).
    assert (∀ l, omap (λ '(fp, t), match t : option (M pydict) with
                                    | None => Some (invalid_operation operation fp)
                                    | Some _ => None
                                    end) (List.map (λ fp, (fp, None)) l)
                 = List.map (invalid_operation operation) l) as ->
      by (induction l as [|? ? IHl]; [done|simpl; try f_equal; exact IHl]).
    simpl. intros [= <- <-].
    induction file_paths as [|fp l IH]; simpl; constructor.
    + exists fp. split; [left|]. right. right. done.
    + eapply Forall_impl; [exact IH|].
      intros d' (fp' & Hin & H). exists fp'. split; [by right|done].
Qed.

(** C2, amended (what a result says about its source).  Every result of
    [odex_apk], [deodex_apk] and [process_files] has a status and a
    message.  The results that [_package_odex] returns and all results of
    [deodex_apk] name no source.  A result of [odex_apk] is either one
    that [_package_odex] returned in the run, or an error result that
    names the source archive under [original_apk]: the results of
    [_odex_file] and of the [except] clause of [odex_apk].  In a batch the
    only other result that names its input, under [original_file], is the
    one appended for an invalid operation. *)
Theorem results_name_source_unless_repackaged_or_stripped :
  (∀ src oat vdex output_dir w d,
     (_package_odex src oat vdex output_dir w).2 = Return d →
     has_status_and_message d ∧ names_no_source d) ∧
  (∀ apk_path bootclasspath output_dir w d,
     let apk_file := PyPath.Path apk_path in
     let run := odex_apk dex2oat self apk_path bootclasspath output_dir w in
     run.2 = Return d →
     has_status_and_message d ∧ d !! "original_file" = None ∧
     ((d !! "original_apk" = Some (FPath apk_file) ∧
       d !! "status" = Some (FStr "error")) ∨
      (d !! "original_apk" = None ∧
       ∃ w2, (_package_odex apk_file (oat_output_path self apk_file)
                (vdex_output_path self apk_file)
                (output_dir_arg output_dir) w2).2 = Return d))) ∧
  (∀ apk_path output_dir w d,
     (deodex_apk apk_path output_dir w).2 = Return d →
     has_status_and_message d ∧ names_no_source d) ∧
  (∀ file_paths operation bootclasspath output_dir w rs,
     (process_files dex2oat self file_paths operation bootclasspath output_dir w).2
     = Return rs →
     Forall (λ d,
       has_status_and_message d ∧
       (names_no_source d ∨
        (∃ fp, fp ∈ file_paths ∧ operation = "odex" ∧
               d !! "original_apk" = Some (FPath (PyPath.Path fp)) ∧
               d !! "original_file" = None) ∨
        (∃ fp, fp ∈ file_paths ∧ d = invalid_operation operation fp ∧
               d !! "original_file" = Some (FStr fp) ∧
               d !! "original_apk" = None))) rs).
Proof.
  split_and!.
  - intros src oat vdex output_dir w d.
    destruct (_package_odex _ _ _ _ _) as [w' r] eqn:Hrun. simpl. intros ->.
    by eapply package_odex_result.
  - intros apk_path bootclasspath output_dir w d apk_file run. subst run apk_file.
    destruct (odex_apk _ _ _ _ _ _) as [w' r] eqn:Hrun. simpl. intros ->.
    by eapply odex_apk_result.
  - intros apk_path output_dir w d.
    destruct (deodex_apk _ _ _) as [w' r] eqn:Hrun. simpl. intros ->.
    by eapply deodex_apk_result.
  - intros file_paths operation bootclasspath output_dir w rs.
    destruct (process_files _ _ _ _ _ _ _) as [w' r] eqn:Hrun. simpl. intros ->.
    eapply Forall_impl; [by eapply process_files_results|].
    intros d (fp & Hin & [(-> & w1 & w2 & Hd)|[(-> & w1 & w2 & Hd)|(_ & _ & ->)]]).
    + apply odex_apk_result in Hd as (Hsm & Hfile & [[Hapk _]|[Hapk _]]);
        (split; [done|]).
      * right. left. by exists fp.
      * by left.
    + apply deodex_apk_result in Hd as (Hsm & Hno). split; [done|by left].
    + split; [dict_fields|]. right. right. exists fp.
      split_and!; [done|done|vm_compute; reflexivity..].
Qed.

End Results.

Lemma results_name_source_witness :
  let missing := odex_apk Demo.dex2oat Demo.patcher "nope.apk" None None Demo.world in
  let packed := odex_apk Demo.dex2oat Demo.patcher "app.apk" None None Demo.world in
  let batch := process_files Demo.dex2oat Demo.patcher ["app.apk"; "lib.apk"; "nope.apk"]
                 "odex" None None Demo.world in
  (∃ d, missing.2 = Return d ∧ d !! "original_apk" = Some (FPath ["nope.apk"])) ∧
  (∃ d, packed.2 = Return d ∧ d !! "original_apk" = None ∧
        ∃ w2, (_package_odex ["app.apk"] ["tmp_odex_patcher"; "app.oat"]
                 ["tmp_odex_patcher"; "app.vdex"] None w2).2 = Return d) ∧
  (∃ d, (deodex_apk "lib.apk" None Demo.world).2 = Return d ∧ names_no_source d) ∧
  (∃ rs, batch.2 = Return rs ∧ length rs = 3%nat ∧ Forall has_status_and_message rs).
Proof.
  intros missing packed batch.
  destruct (results_name_source_unless_repackaged_or_stripped Demo.dex2oat Demo.patcher)
    as (_ & Hodex & Hdeodex & Hbatch).
  split_and!.
  - exists (dict [ ("status", FStr "error");
                   ("message", FStr "APK file not found: nope.apk");
                   ("original_apk", FPath ["nope.apk"]) ]).
    assert (missing.2 = Return (dict [ ("status", FStr "error");
                   ("message", FStr "APK file not found: nope.apk");
                   ("original_apk", FPath ["nope.apk"]) ])) as Hrun
      by (vm_compute; reflexivity).
    split; [exact Hrun|].
    destruct (Hodex "nope.apk" None None Demo.world _ Hrun)
      as (_ & _ & [[Hapk _]|[Hapk _]]).
    + vm_compute in Hapk. vm_compute. apply Hapk.
    + vm_compute in Hapk. discriminate Hapk.
  - exists (dict [ ("status", FStr "success");
                   ("message", FStr "Odexed APK created at: app-odexed.apk");
                   ("output_path", FPath ["app-odexed.apk"]) ]).
    assert (packed.2 = Return (dict [ ("status", FStr "success");
                   ("message", FStr "Odexed APK created at: app-odexed.apk");
                   ("output_path", FPath ["app-odexed.apk"]) ])) as Hrun
      by (vm_compute; reflexivity).
    split; [exact Hrun|].
    destruct (Hodex "app.apk" None None Demo.world _ Hrun)
      as (_ & _ & [[Hapk _]|[Hapk Hpk]]).
    + vm_compute in Hapk. discriminate Hapk.
    + split; [exact Hapk|exact Hpk].
  - exists (strip_result ["lib.apk"] ["lib-deodexed.apk"] false).
    assert ((deodex_apk "lib.apk" None Demo.world).2
            = Return (strip_result ["lib.apk"] ["lib-deodexed.apk"] false)) as Hrun
      by (vm_compute; reflexivity).
    split; [exact Hrun|].
    by destruct (Hdeodex "lib.apk" None Demo.world _ Hrun) as (_ & Hno).
  - assert (batch.2 = Return [
        dict [ ("status", FStr "success");
               ("message", FStr "Odexed APK created at: app-odexed.apk");
               ("output_path", FPath ["app-odexed.apk"]) ];
        dict [ ("status", FStr "error");
               ("message", FStr "`classes.dex` not found in lib.apk");
               ("original_apk", FPath ["lib.apk"]) ];
        dict [ ("status", FStr "error");
               ("message", FStr "APK file not found: nope.apk");
               ("original_apk", FPath ["nope.apk"]) ] ]) as Hrun
      by (vm_compute; reflexivity).
    eexists. split; [exact Hrun|]. split; [reflexivity|].
    eapply Forall_impl; [exact (Hbatch _ _ _ _ _ _ Hrun)|].
    by intros d [Hsm _].
Defined.

(** ** Copying archive entries *)

Lemma getinfo_Some es n e :
  ZipFile.getinfo es n = Some e → e ∈ es ∧ filename e = n.
Proof.
  unfold ZipFile.getinfo. intros [Hin Hn]%find_some.
  apply in_rev, list_elem_of_In in Hin. by apply String.eqb_eq in Hn.
Qed.

Lemma getinfo_elem es item :
  item ∈ es → is_Some (ZipFile.getinfo es (filename item)).
Proof.
  intros Hin. unfold ZipFile.getinfo.
  destruct (find _ _) as [e|] eqn:Hfind; [by eexists|].
  apply list_elem_of_In, in_rev in Hin.
  pose proof (find_none _ _ Hfind _ Hin) as Hn. simpl in Hn.
  by rewrite String.eqb_refl in Hn.
Qed.

Lemma NoDup_namelist_inj es e1 e2 :
  NoDup (ZipFile.namelist es) → e1 ∈ es → e2 ∈ es → filename e1 = filename e2 → e1 = e2.
Proof.
  unfold ZipFile.namelist. induction es as [|e es IH]; simpl.
  - by intros _ ?%elem_of_nil.
  - intros [Hnotin Hnd]%NoDup_cons [->|H1]%elem_of_cons [->|H2]%elem_of_cons Hname;
      try done.
    + exfalso. apply Hnotin. rewrite Hname. apply list_elem_of_In, in_map.
      by apply list_elem_of_In.
    + exfalso. apply Hnotin. rewrite <- Hname. apply list_elem_of_In, in_map.
      by apply list_elem_of_In.
    + by apply IH.
Qed.

Lemma getinfo_NoDup es item :
  NoDup (ZipFile.namelist es) → item ∈ es →
  ZipFile.getinfo es (filename item) = Some item.
Proof.
  intros Hnd Hin. destruct (getinfo_elem es item Hin) as [e He].
  rewrite He. f_equal. apply getinfo_Some in He as [He Hn].
  by eapply NoDup_namelist_inj.
Qed.

Lemma copy_of_name source item : filename (copy_of source item) = filename item.
Proof. unfold copy_of. by destruct (ZipFile.getinfo _ _). Qed.

Lemma copy_of_compress_type source item :
  compress_type (copy_of source item) = compress_type item.
Proof. unfold copy_of. by destruct (ZipFile.getinfo _ _). Qed.

Lemma copy_of_payload source item :
  item ∈ source →
  ZipFile.read source (filename item) = Return (payload (copy_of source item)).
Proof.
  intros Hin. unfold copy_of, ZipFile.read.
  by destruct (getinfo_elem source item Hin) as [e ->].
Qed.

Lemma copy_of_NoDup source item :
  NoDup (ZipFile.namelist source) → item ∈ source → copy_of source item = item.
Proof.
  intros Hnd Hin. unfold copy_of. rewrite getinfo_NoDup by done. by destruct item.
Qed.

Lemma package_loop_spec source items : ∀ target,
  (∀ item, item ∈ items → item ∈ source) →
  package_loop source items target
  = (target ++ List.map (copy_of source) (List.filter kept_by_odex items), Return tt).
Proof.
  induction items as [|item rest IH]; intros target Hsub; simpl.
  - by rewrite app_nil_r.
  - assert (item ∈ source) as Hin by (apply Hsub; left).
    unfold ZipFile.read, copy_of, kept_by_odex in *.
    destruct (getinfo_elem source item Hin) as [e He]. rewrite He.
    destruct (negb _); simpl.
    + rewrite IH by (intros ??; apply Hsub; by right).
      rewrite He. by rewrite <- app_assoc.
    + apply IH. intros ??; apply Hsub; by right.
Qed.

Lemma deodex_loop_spec source items : ∀ target found,
  (∀ item, item ∈ items → item ∈ source) →
  deodex_loop source items target found
  = (target ++ List.map (copy_of source) (List.filter kept_by_strip items),
     Return (found || existsb (λ e, String.eqb (filename e) "classes.dex") items)).
Proof.
  induction items as [|item rest IH]; intros target found Hsub; simpl.
  - by rewrite app_nil_r, orb_false_r.
  - assert (item ∈ source) as Hin by (apply Hsub; left).
    assert (∀ x, x ∈ rest → x ∈ source) as Hrest by (intros ??; apply Hsub; by right).
    unfold ZipFile.read, copy_of, kept_by_strip in *.
    destruct (getinfo_elem source item Hin) as [e He]. rewrite He.
    destruct (PyStr.startswith "oat/" (filename item)) eqn:Hoat;
      destruct (String.eqb (filename item) "classes.dex") eqn:Hdex; simpl.
    + rewrite IH by done. by rewrite orb_true_r.
    + by rewrite IH.
    + rewrite IH by done. by rewrite orb_true_r.
    + rewrite IH by done. rewrite He. by rewrite <- app_assoc.
Qed.

Lemma carried_over_copy source written e :
  e ∈ source → copy_of source e ∈ written → carried_over source written e.
Proof.
  intros Hin Hcopy. split.
  - exists (copy_of source e). split_and!; [done|..].
    + apply copy_of_name.
    + apply copy_of_compress_type.
    + by apply copy_of_payload.
  - intros Hnd. by rewrite copy_of_NoDup in Hcopy.
Qed.

(** ** What the repackager and the strip write *)

Lemma package_odex_success src oat vdex od w w' d out es :
  FS.stat (files w) src = Some (File (Zip es)) →
  _package_odex src oat vdex od w = (w', Return d) →
  d !! "output_path" = Some (FPath out) →
  ∃ fs1 fs2 e_oat e_vdex,
    out = default (PyPath.Path ".") od // (PyPath.stem src +:+ "-odexed.apk") ∧
    FS.mkdir_parents (default (PyPath.Path ".") od) (files w) = (fs1, Return tt) ∧
    FS.write_file out (Zip []) fs1 = (fs2, Return tt) ∧
    ZipFile.write fs2 oat (shard_name oat) = Return e_oat ∧
    ZipFile.write fs2 vdex (shard_name vdex) = Return e_vdex ∧
    w' = World (<[out := File (Zip (List.map (copy_of es) (List.filter kept_by_odex es)
                                      ++ [e_oat; e_vdex]))]> fs2)
               (trace w ++ [Enter "_package_odex"]).
Proof.
  intros Hsrc. unfold _package_odex. unfold_M. simpl.
  pose proof (mkdir_from_keeps_file (default (PyPath.Path ".") od) [] _ _ _ Hsrc) as Hsrc'.
  unfold FS.mkdir_parents.
  change (match od with Some d => d | None => PyPath.Path "." end)
    with (default (PyPath.Path ".") od).
  destruct (FS.mkdir_from _ _ _) as [fs1 [[]|e]]; simpl in *; [|done].
  unfold ZipFile.open_r. rewrite Hsrc'. simpl.
  destruct (FS.write_file _ _ _) as [fs2 [[]|e]] eqn:Hw; simpl.
  2:{ destruct e; try done; intros [= <- <-] Hout; by vm_compute in Hout. }
  unfold package_body. rewrite package_loop_spec by done. simpl.
  unfold shard_name, first_char.
  destruct (PyPath.name oat) as [|c1 n1] eqn:Hn1; simpl.
  { intros [= <- <-]. }
  destruct (PyPath.name vdex) as [|c2 n2] eqn:Hn2; simpl.
  { intros [= <- <-]. }
  destruct (ZipFile.write fs2 oat _) as [e_oat|e] eqn:Hoat; simpl.
  2:{ destruct e; try done; intros [= <- <-] Hout; by vm_compute in Hout. }
  destruct (ZipFile.write fs2 vdex _) as [e_vdex|e] eqn:Hvdex; simpl.
  2:{ destruct e; try done; intros [= <- <-] Hout; by vm_compute in Hout. }
  intros [= <- <-] Hout.
  assert (out = default (PyPath.Path ".") od // (PyPath.stem src +:+ "-odexed.apk")) as ->.
  { revert Hout. clear. unfold dict, lookup, pydict_lookup. simpl. by intros [= <-]. }
  by eexists _, _, _, _.
Qed.

Lemma write_file_not_BadZipFile p d fs : (FS.write_file p d fs).2 ≠ Raise BadZipFile.
Proof. unfold FS.write_file. repeat case_match; simpl; congruence. Qed.

(** [deodex_apk] on an archive, for an output directory that is not a
    [str]. *)
Lemma deodex_apk_eq apk_path od output_dir w es :
  (output_dir = None ∧ od = PyPath.Path ".") ∨ output_dir = Some (DPath od) →
  FS.stat (files w) (PyPath.Path apk_path) = Some (File (Zip es)) →
  deodex_apk apk_path output_dir w =
    let apk_file := PyPath.Path apk_path in
    let out := od // (PyPath.stem apk_file +:+ "-deodexed.apk") in
    match FS.mkdir_parents od (files w) with
    | (fs1, Raise e) => (World fs1 (trace w), Raise e)
    | (fs1, Return _) =>
        match FS.write_file out (Zip []) fs1 with
        | (fs2, Raise e) => (World fs2 (trace w), Raise e)
        | (fs2, Return _) =>
            (World (<[out := File (Zip (List.map (copy_of es)
                                          (List.filter kept_by_strip es)))]> fs2)
                   (trace w),
             Return (strip_result apk_file out (existsb is_bytecode es)))
        end
    end.
Proof.
  intros Hod Hsrc. unfold deodex_apk. unfold_M. cbn beta iota zeta.
  unfold FS.is_file. cbn [files]. rewrite Hsrc. cbn [negb].
  destruct Hod as [[-> ->]| ->]; cbn beta iota zeta; cbn [files trace].
  all: match goal with
       | |- context [FS.mkdir_parents ?od _] =>
           pose proof (mkdir_from_keeps_file od [] _ _ _ Hsrc) as Hsrc';
           pose proof (λ fs1, write_file_not_BadZipFile
                         (od // (PyPath.stem (PyPath.Path apk_path) +:+ "-deodexed.apk"))
                         (Zip []) fs1) as Hnb
       end.
  all: unfold FS.mkdir_parents in *.
  all: destruct (FS.mkdir_from _ _ _) as [fs1 [[]|e]];
         cbn [fst snd files trace] in *; [|done].
  all: unfold ZipFile.open_r; rewrite Hsrc'; cbn [files trace].
  all: specialize (Hnb fs1).
  all: destruct (FS.write_file _ _ _) as [fs2 [[]|e]]; cbn [fst snd files trace] in *;
         [|by destruct e].
  all: rewrite deodex_loop_spec by done; cbn [files trace orb].
  all: unfold strip_result, is_bytecode; by destruct (existsb _ es).
Qed.

Lemma copy_in_written source (keep : zentry → bool) e extra :
  e ∈ source → keep e = true →
  copy_of source e ∈ List.map (copy_of source) (List.filter keep source) ++ extra.
Proof.
  intros Hin Hkeep. apply elem_of_app. left.
  apply list_elem_of_In, in_map, filter_In. split; [by apply list_elem_of_In|done].
Qed.

(** X21.  What the two copy loops write, as the code has it: on both the
    odex path and the strip path, every source entry that is not excluded
    has an entry in the archive written with the same name and the same
    compression method, whose payload is what the source archive gives when
    read by that name; when the names of the source archive are pairwise
    distinct, the entry itself is in the archive written. *)
Theorem copied_entries_carried_over :
  (∀ src oat vdex output_dir w d out es,
     let run := _package_odex src oat vdex output_dir w in
     FS.stat (files w) src = Some (File (Zip es)) →
     run.2 = Return d →
     d !! "output_path" = Some (FPath out) →
     ∃ written,
       files run.1 !! out = Some (File (Zip written)) ∧
       ∀ e, e ∈ es → kept_by_odex e = true → carried_over es written e) ∧
  (∀ apk_path output_dir w d out es,
     let run := deodex_apk apk_path output_dir w in
     FS.stat (files w) (PyPath.Path apk_path) = Some (File (Zip es)) →
     run.2 = Return d →
     d !! "output_path" = Some (FPath out) →
     ∃ written,
       files run.1 !! out = Some (File (Zip written)) ∧
       ∀ e, e ∈ es → kept_by_strip e = true → carried_over es written e).
Proof.
  split.
  - intros src oat vdex output_dir w d out es run Hsrc Hret Hout. subst run.
    destruct (_package_odex src oat vdex output_dir w) as [w' r] eqn:Hrun.
    simpl in Hret. subst r.
    destruct (package_odex_success _ _ _ _ _ _ _ _ _ Hsrc Hrun Hout)
      as (fs1 & fs2 & e_oat & e_vdex & -> & _ & _ & _ & _ & ->).
    eexists. cbn [fst files]. split; [apply lookup_insert_eq|].
    intros e Hin Hkeep. apply carried_over_copy; [done|]. by apply copy_in_written.
  - intros apk_path output_dir w d out es run Hsrc Hret Hout. subst run.
    assert (∃ od, (output_dir = None ∧ od = PyPath.Path ".")
                  ∨ output_dir = Some (DPath od)) as [od Hod].
    { destruct output_dir as [[s|p]|]; [|by exists p; right|by eexists; left].
      exfalso. revert Hret. unfold deodex_apk. unfold_M. simpl.
      unfold FS.is_file. by rewrite Hsrc. }
    revert Hret. rewrite (deodex_apk_eq _ _ _ _ _ Hod Hsrc). cbn zeta.
    destruct (FS.mkdir_parents _ _) as [fs1 [[]|e]]; [|done].
    destruct (FS.write_file _ _ _) as [fs2 [[]|e]]; [|done].
    cbn [fst snd files]. intros [= <-].
    assert (out = od // (PyPath.stem (PyPath.Path apk_path) +:+ "-deodexed.apk")) as ->.
    { revert Hout. clear. unfold strip_result.
      destruct (negb _); unfold dict, lookup, pydict_lookup; simpl; by intros [= <-]. }
    eexists. split; [apply lookup_insert_eq|].
    intros e Hin Hkeep. apply carried_over_copy; [done|].
    rewrite <- (app_nil_r (List.map _ _)). by apply copy_in_written.
Qed.

Lemma copied_entries_witness :
  let compiled := (odex_apk Demo.dex2oat Demo.patcher "app.apk" None None Demo.world).1 in
  let packed := _package_odex ["app.apk"] ["tmp_odex_patcher"; "app.oat"]
                  ["tmp_odex_patcher"; "app.vdex"] (Some ["out"]) compiled in
  let stripped := deodex_apk "lib.apk" None Demo.world in
  (∃ written,
     files packed.1 !! ["out"; "app-odexed.apk"] = Some (File (Zip written)) ∧
     ZEntry "res/icon.png" ZIP_STORED (Blob [x89; x50]) ∈ written) ∧
  (∃ written,
     files stripped.1 !! ["lib-deodexed.apk"] = Some (File (Zip written)) ∧
     ZEntry "res/icon.png" ZIP_STORED (Blob [x89; x51]) ∈ written).
Proof.
  intros compiled packed stripped.
  destruct copied_entries_carried_over as [Hodex Hstrip]. split.
  - destruct (Hodex ["app.apk"] ["tmp_odex_patcher"; "app.oat"]
                ["tmp_odex_patcher"; "app.vdex"] (Some ["out"]) compiled
                (dict [ ("status", FStr "success");
                        ("message", FStr "Odexed APK created at: out/app-odexed.apk");
                        ("output_path", FPath ["out"; "app-odexed.apk"]) ])
                ["out"; "app-odexed.apk"] Demo.app_entries)
      as (written & Hfile & Hall).
    + vm_compute. reflexivity.
    + vm_compute. reflexivity.
    + vm_compute. reflexivity.
    + exists written. split; [exact Hfile|].
      apply (Hall (ZEntry "res/icon.png" ZIP_STORED (Blob [x89; x50]))).
      * by do 2 right; left.
      * reflexivity.
      * apply (bool_decide_eq_true_1 _). vm_compute. reflexivity.
  - destruct (Hstrip "lib.apk" None Demo.world
                (strip_result ["lib.apk"] ["lib-deodexed.apk"] false)
                ["lib-deodexed.apk"] Demo.lib_entries)
      as (written & Hfile & Hall).
    + vm_compute. reflexivity.
    + vm_compute. reflexivity.
    + vm_compute. reflexivity.
    + exists written. split; [exact Hfile|].
      apply (Hall (ZEntry "res/icon.png" ZIP_STORED (Blob [x89; x51]))).
      * by right; left.
      * reflexivity.
      * apply (bool_decide_eq_true_1 _). vm_compute. reflexivity.
Defined.

(** The warning path of the strip, for an output directory that is absent
    or a path object: the result is the warning and the filtered archive is
    written. *)
Lemma deodex_apk_warns_without_bytecode apk_path od output_dir w es fs1 fs2 :
  let apk_file := PyPath.Path apk_path in
  let out := od // (PyPath.stem apk_file +:+ "-deodexed.apk") in
  (output_dir = None ∧ od = PyPath.Path ".") ∨ output_dir = Some (DPath od) →
  FS.stat (files w) apk_file = Some (File (Zip es)) →
  "classes.dex" ∉ ZipFile.namelist es →
  FS.mkdir_parents od (files w) = (fs1, Return tt) →
  FS.write_file out (Zip []) fs1 = (fs2, Return tt) →
  deodex_apk apk_path output_dir w
  = (World (<[out := File (Zip (List.map (copy_of es) (List.filter kept_by_strip es)))]> fs2)
           (trace w),
     Return (dict [
       ("status", FStr "warning");
       ("message", FStr ("No classes.dex found in " +:+ PyPath.str apk_file
                         +:+ ". Already deodexed?"));
       ("output_path", FPath out) ])).
Proof.
  intros apk_file out Hod Hsrc Hno Hmk Hw. subst apk_file out.
  rewrite (deodex_apk_eq _ _ _ _ _ Hod Hsrc). cbn zeta. rewrite Hmk, Hw.
  replace (existsb is_bytecode es) with false; [done|].
  symmetry. apply not_true_is_false. intros (e & Hin & He)%existsb_exists.
  apply Hno. unfold is_bytecode in He. apply String.eqb_eq in He. rewrite <- He.
  by apply list_elem_of_In, in_map.
Qed.

(** What a strip that returns has done. *)
Lemma deodex_apk_returned apk_path output_dir w w' d es :
  FS.stat (files w) (PyPath.Path apk_path) = Some (File (Zip es)) →
  deodex_apk apk_path output_dir w = (w', Return d) →
  ∃ od fs2,
    let out := od // (PyPath.stem (PyPath.Path apk_path) +:+ "-deodexed.apk") in
    ((output_dir = None ∧ od = PyPath.Path ".") ∨ output_dir = Some (DPath od)) ∧
    FS.write_file out (Zip []) (FS.mkdir_parents od (files w)).1 = (fs2, Return tt) ∧
    w' = World (<[out := File (Zip (List.map (copy_of es)
                                       (List.filter kept_by_strip es)))]> fs2)
               (trace w) ∧
    d = strip_result (PyPath.Path apk_path) out (existsb is_bytecode es).
Proof.
  intros Hsrc Hrun.
  assert (∃ od, (output_dir = None ∧ od = PyPath.Path ".")
                ∨ output_dir = Some (DPath od)) as [od Hod].
  { destruct output_dir as [[s|p]|]; [|by exists p; right|by eexists; left].
    exfalso. revert Hrun. unfold deodex_apk. unfold_M. simpl.
    unfold FS.is_file. by rewrite Hsrc. }
  revert Hrun. rewrite (deodex_apk_eq _ _ _ _ _ Hod Hsrc). cbn zeta.
  destruct (FS.mkdir_parents _ _) as [fs1 [[]|e]] eqn:Hmk; [|done].
  destruct (FS.write_file _ _ _) as [fs2 [[]|e]] eqn:Hw; [|done].
  intros [= <- <-]. exists od, fs2. cbn zeta. rewrite Hmk. by split_and!.
Qed.

(** ** Archive names of the artifacts *)

Lemma with_suffix_not_dotdot x ext :
  (3 ≤ String.length ext)%nat → x +:+ ext ≠ "..".
Proof.
  intros Hlen Heq. apply (f_equal String.length) in Heq.
  rewrite str_length_app in Heq. simpl in Heq. lia.
Qed.












(** ** The source archive during a run *)




Lemma odex_file_files dex2oat self dex_path apk bootclasspath w :
  files (_odex_file dex2oat self dex_path apk bootclasspath w).1
  = (dex2oat (odex_command self dex_path apk bootclasspath) (files w)).1.
Proof.
  unfold _odex_file. unfold_M. simpl.
  destruct (dex2oat _ _) as [fs' c]. simpl.
  by destruct c as [[| |] err|[]].
Qed.

(** ** Stripping an odexed archive *)






Section RoundTrip.

Variable dex2oat : list string → filesystem → filesystem * completed.
Variable self : OdexPatcherAdvanced.





End RoundTrip.



(** ** Paths below the scratch root and the output directory *)


Lemma prefix_length_eq {A} (p q : list A) :
  p `prefix_of` q → (length q ≤ length p)%nat → p = q.
Proof.
  intros [k ->] Hlen. rewrite length_app in Hlen.
  destruct k; [by rewrite app_nil_r|simpl in Hlen; lia].
Qed.








Lemma stat_lexical fs p : ".." ∉ p → p ≠ [] → FS.stat fs p = fs !! p.
Proof.
  intros Hlex Hne. destruct p as [|c p _] using rev_ind; [done|].
  apply stat_plain. intros ->. apply Hlex. set_solver.
Qed.

(** ** Runs that go through, stage by stage *)

Section Forward.

Variable dex2oat : list string → filesystem → filesystem * completed.
Variable self : OdexPatcherAdvanced.










End Forward.

(** ** The batch of three *)

Section Isolation.

Variable dex2oat : list string → filesystem → filesystem * completed.
Variable self : OdexPatcherAdvanced.
Variables valid lacking missing : string.
Variable bootclasspath : option (list string).
Variable output_dir : option dirarg.
Variables es1 es2 : list zentry.
Variable fs0 : filesystem.

Hypothesis Hbatch :
  isolation_batch dex2oat self fs0 valid lacking missing bootclasspath output_dir es1 es2.

Local Abbreviation td := (tmp_dir self).
Local Abbreviation od := (default (PyPath.Path ".") (output_dir_arg output_dir)).
Local Abbreviation s1 := (PyPath.stem (PyPath.Path valid)).
Local Abbreviation sub := (td ++ [s1]).
Local Abbreviation dex := (td ++ [s1] ++ ["classes.dex"]).
Local Abbreviation oat := (td ++ [s1 +:+ ".oat"]).
Local Abbreviation vdex := (td ++ [s1 +:+ ".vdex"]).
Local Abbreviation out := (od ++ [s1 +:+ "-odexed.apk"]).










End Isolation.




(** ** Every odex run *)

Ltac result_fields :=
  unfold status_of, has_output, dict, lookup, pydict_lookup; cbn;
  repeat match goal with
         | |- _ ∧ _ => split
         end;
  try reflexivity; try discriminate; auto.

Section OdexRuns.

Variable dex2oat : list string → filesystem → filesystem * completed.
Variable self : OdexPatcherAdvanced.

Lemma scratch_cleanup_raises apk_file fs fs' e :
  scratch_cleanup self apk_file fs = (fs', Raise e) → e = OSError.
Proof.
  unfold scratch_cleanup, FS.rmtree, FS.is_dir.
  destruct (FS.stat fs _) as [[d|]|]; [intros [=]| |intros [=]].
  destruct (FS.unremovable _); by intros [=].
Qed.

Lemma package_odex_output_path src oat vdex od w w' d out :
  _package_odex src oat vdex od w = (w', Return d) →
  d !! "output_path" = Some (FPath out) →
  out = default (PyPath.Path ".") od // (PyPath.stem src +:+ "-odexed.apk") ∧
  status_of d = Some "success".
Proof.
  unfold _package_odex. unfold_M. simpl.
  change (match od with Some d => d | None => PyPath.Path "." end)
    with (default (PyPath.Path ".") od).
  destruct (FS.mkdir_parents _ _) as [fs1 [[]|e]]; simpl; [|done].
  destruct (ZipFile.open_r fs1 src) as [es|e]; simpl.
  2:{ destruct e; try done; intros [= <- <-] Hout; by vm_compute in Hout. }
  destruct (FS.write_file _ _ _) as [fs2 [[]|e]]; simpl.
  2:{ destruct e; try done; intros [= <- <-] Hout; by vm_compute in Hout. }
  destruct (package_body _ _ _ _) as [entries [[]|e]]; simpl.
  2:{ destruct e; try done; intros [= <- <-] Hout; by vm_compute in Hout. }
  intros [= <- <-]. unfold status_of, dict, lookup, pydict_lookup. simpl.
  by intros [= <-].
Qed.


(** X2.  After an odex run, whatever its outcome and whatever the compiler
    did, the scratch sub-directory of the archive is no directory. *)
Theorem odex_apk_removes_scratch_subdir
    (apk_path : string) (bootclasspath : option (list string))
    (output_dir : option dirarg) (w : world) :
  let run := odex_apk dex2oat self apk_path bootclasspath output_dir w in
  let scratch := tmp_dir self // PyPath.stem (PyPath.Path apk_path) in
  FS.unremovable scratch = false →
  FS.is_dir (files run.1) scratch = false.
Proof.
  intros run scratch Hrm. subst run scratch.
  destruct (odex_apk_run dex2oat self apk_path bootclasspath output_dir w)
    as (w1 & r & t & Hrun & Ht & ->).
  unfold scratch_cleanup.
  destruct (FS.is_dir (files w1) _) eqn:Hdir; [|done].
  rewrite rmtree_removable by done. cbn [fst files].
  unfold FS.is_dir. rewrite stat_removable, lookup_rmtree_under; [done| |done].
  destruct (unremovable_false_snoc _ Hrm) as (q & c & Hq & _).
  apply under_refl; [|done]. rewrite Hq. by destruct q.
Qed.

(** X3.  The status of a result of an odex run is ["success"] when it has an
    [output_path] and ["error"] when it has none. *)
Theorem odex_apk_result_shape
    (apk_path : string) (bootclasspath : option (list string))
    (output_dir : option dirarg) (w : world) (d : pydict) :
  (odex_apk dex2oat self apk_path bootclasspath output_dir w).2 = Return d →
  status_of d = Some (if has_output d then "success" else "error")%string.
Proof.
  destruct (odex_apk_run dex2oat self apk_path bootclasspath output_dir w)
    as (w1 & r & t & Hrun & Ht & ->).
  destruct (scratch_cleanup _ _ _) as [fs2 [[]|e]]; [|done]. cbn [snd].
  destruct Hrun as [w1 e Hex|w1 ? ? e Hex Hod|w1 ? ? msg Hex Hod
                   |w1 dex_path w2 d0 w3 r Hex Hod Hst Hpk].
  - destruct e; cbn; intros [= <-]; result_fields.
  - destruct e; cbn; intros [= <-]; result_fields.
  - cbn. intros [= <-]. result_fields.
  - destruct (package_odex_run (PyPath.Path apk_path)
                (oat_output_path self (PyPath.Path apk_path))
                (vdex_output_path self (PyPath.Path apk_path))
                (output_dir_arg output_dir) w2)
      as (fs' & r' & Hpk' & Hres).
    rewrite Hpk in Hpk'. simplify_eq/=.
    destruct r' as [d'|e]; simpl in *.
    + intros [= <-]. destruct Hres as [[out ->]|[msg ->]]; result_fields.
    + destruct Hres as [Hf Hv]. destruct e; try done.
      * by destruct (Hf msg).
      * by destruct (Hv msg).
Qed.

(** X4.  The output archive of an odex run is named after the base name of
    the input alone: two inputs with one base name, wherever they lie,
    are written to one output path. *)
Theorem odex_apk_output_named_by_stem
    (apk_path apk_path' : string) (bootclasspath bootclasspath' : option (list string))
    (output_dir : option dirarg) (w w' : world) (d d' : pydict) (out out' : path) :
  PyPath.stem (PyPath.Path apk_path) = PyPath.stem (PyPath.Path apk_path') →
  (odex_apk dex2oat self apk_path bootclasspath output_dir w).2 = Return d →
  d !! "output_path" = Some (FPath out) →
  (odex_apk dex2oat self apk_path' bootclasspath' output_dir w').2 = Return d' →
  d' !! "output_path" = Some (FPath out') →
  out = out' ∧
  out = default (PyPath.Path ".") (output_dir_arg output_dir)
        // (PyPath.stem (PyPath.Path apk_path) +:+ "-odexed.apk").
Proof.
  assert (∀ p bcp w0 d0 out0,
            (odex_apk dex2oat self p bcp output_dir w0).2 = Return d0 →
            d0 !! "output_path" = Some (FPath out0) →
            out0 = default (PyPath.Path ".") (output_dir_arg output_dir)
                   // (PyPath.stem (PyPath.Path p) +:+ "-odexed.apk")) as Hout.
  { intros p bcp w0 d0 out0.
    destruct (odex_apk_run dex2oat self p bcp output_dir w0)
      as (w1 & r & t & Hrun & Ht & ->).
    destruct (scratch_cleanup _ _ _) as [fs2 [[]|e]]; [|done]. cbn [snd].
    destruct Hrun as [w1 e Hex|w1 ? ? e Hex Hod|w1 ? ? msg Hex Hod
                     |w1 dex_path w2 d1 w3 r Hex Hod Hst Hpk].
    - destruct e; cbn; intros [= <-] Hf; by vm_compute in Hf.
    - destruct e; cbn; intros [= <-] Hf; by vm_compute in Hf.
    - cbn. intros [= <-] Hf. by vm_compute in Hf.
    - destruct r as [d1'|e]; cbn.
      + intros [= <-] Hf. by destruct (package_odex_output_path _ _ _ _ _ _ _ _ Hpk Hf).
      + destruct e; cbn; try done; intros [= <-] Hf; by vm_compute in Hf. }
  intros Hstem Hd Hf Hd' Hf'.
  rewrite (Hout _ _ _ _ _ Hd Hf), (Hout _ _ _ _ _ Hd' Hf'). by rewrite Hstem.
Qed.

End OdexRuns.

(** ** Extraction *)



Section Extraction.

Variable self : OdexPatcherAdvanced.



End Extraction.

(** ** Repackaging *)

Section Packaging.

Variable self : OdexPatcherAdvanced.


End Packaging.


(** ** The strip *)

Lemma existsb_is_bytecode es :
  existsb is_bytecode es = bool_decide ("classes.dex" ∈ ZipFile.namelist es).
Proof.
  case_bool_decide as Hin.
  - apply existsb_exists. unfold ZipFile.namelist in Hin.
    apply list_elem_of_In, in_map_iff in Hin as (e & He & Hin).
    exists e. split; [done|]. unfold is_bytecode. by apply String.eqb_eq.
  - apply not_true_is_false. intros (e & He & Hb)%existsb_exists. apply Hin.
    unfold is_bytecode in Hb. apply String.eqb_eq in Hb. rewrite <- Hb.
    by apply list_elem_of_In, in_map.
Qed.

Lemma strip_written_kept es :
  Forall (λ e, kept_by_strip e = true)
    (List.map (copy_of es) (List.filter kept_by_strip es)).
Proof.
  apply Forall_forall. intros e Hin.
  apply list_elem_of_In, in_map_iff in Hin as (i & <- & Hi).
  apply filter_In in Hi as [_ Hk]. unfold kept_by_strip in *.
  by rewrite copy_of_name.
Qed.

Lemma filter_all {A} (f : A → bool) l :
  Forall (λ x, f x = true) l → List.filter f l = l.
Proof.
  induction 1 as [|x l Hx _ IH]; [done|]. simpl. by rewrite Hx, IH.
Qed.

Lemma copy_of_written_fixed es (keep : zentry → bool) item :
  let written := List.map (copy_of es) (List.filter keep es) in
  item ∈ written → copy_of written item = item.
Proof.
  intros written Hin. unfold copy_of at 1.
  destruct (getinfo_elem written item Hin) as [e' He']. rewrite He'.
  apply getinfo_Some in He' as [Hin' Hname].
  subst written.
  apply list_elem_of_In, in_map_iff in Hin as (i & <- & Hi).
  apply list_elem_of_In, in_map_iff in Hin' as (j & <- & Hj).
  apply filter_In in Hi as [Hi _]. apply filter_In in Hj as [Hj _].
  apply list_elem_of_In in Hi, Hj.
  rewrite !copy_of_name in Hname.
  pose proof (copy_of_payload es i Hi) as Pi.
  pose proof (copy_of_payload es j Hj) as Pj.
  rewrite Hname, Pi in Pj. injection Pj as Pj.
  unfold writestr. rewrite <- Pj. by destruct (copy_of es i).
Qed.

Lemma strip_output_path apk_file out found :
  strip_result apk_file out found !! "output_path" = Some (FPath out).
Proof. unfold strip_result. by destruct found. Qed.

Lemma strip_status apk_file out found :
  status_of (strip_result apk_file out found)
  = Some (if found then "success" else "warning")%string.
Proof. unfold strip_result. by destruct found. Qed.

Lemma deodexed_name_plain od s :
  ∃ x, od // (PyPath.stem (PyPath.Path s) +:+ "-deodexed.apk") = od ++ [x] ∧ x ≠ "..".
Proof.
  destruct (with_suffix_name (PyPath.stem (PyPath.Path s)) "-deodexed.apk") as (? & ? & ?);
    [apply stem_sep_free|done|simpl; lia|].
  eexists. split; [by apply joinpath_name|].
  apply with_suffix_not_dotdot. simpl. lia.
Qed.

(** X9.  A strip that returns has written the output archive named in its
    result: the entries of the source that are neither [classes.dex] nor
    below [oat/], in order.  Its status is ["success"] when the source had
    a [classes.dex] and ["warning"] when it had none. *)
Theorem deodex_apk_status_tracks_bytecode
    (apk_path : string) (output_dir : option dirarg) (w : world)
    (es : list zentry) (d : pydict) :
  let run := deodex_apk apk_path output_dir w in
  FS.stat (files w) (PyPath.Path apk_path) = Some (File (Zip es)) →
  run.2 = Return d →
  status_of d = Some (if bool_decide ("classes.dex" ∈ ZipFile.namelist es)
                      then "success" else "warning")%string ∧
  ∃ out written,
    d !! "output_path" = Some (FPath out) ∧
    FS.stat (files run.1) out = Some (File (Zip written)) ∧
    written = List.map (copy_of es) (List.filter kept_by_strip es) ∧
    Forall (λ e, filename e ≠ "classes.dex" ∧
                 PyStr.startswith "oat/" (filename e) = false) written.
Proof.
  intros run Hsrc Hret. subst run.
  destruct (deodex_apk apk_path output_dir w) as [w' r] eqn:Hrun.
  cbn [fst snd] in *. subst r.
  destruct (deodex_apk_returned _ _ _ _ _ _ Hsrc Hrun) as (od & fs2 & _ & _ & -> & ->).
  rewrite strip_status, existsb_is_bytecode. split; [done|].
  eexists _, _. split_and!; [apply strip_output_path| |done|].
  - cbn [files]. destruct (deodexed_name_plain od apk_path) as (x & -> & Hx).
    by rewrite stat_plain, lookup_insert_eq.
  - eapply Forall_impl; [apply strip_written_kept|].
    intros e [Ho Hc]%andb_prop. apply negb_true_iff in Ho, Hc.
    split; [by apply String.eqb_neq|done].
Qed.

(** X10.  Stripping is idempotent on the contents: the strip of an archive
    written by a strip writes the same entries again, and its status is
    ["warning"]. *)
Theorem deodex_apk_twice
    (apk_path stripped_path : string) (output_dir output_dir' : option dirarg)
    (w : world) (es : list zentry) (d d' : pydict) (out : path) :
  let first := deodex_apk apk_path output_dir w in
  let second := deodex_apk stripped_path output_dir' first.1 in
  FS.stat (files w) (PyPath.Path apk_path) = Some (File (Zip es)) →
  first.2 = Return d →
  d !! "output_path" = Some (FPath out) →
  PyPath.Path stripped_path = out →
  second.2 = Return d' →
  status_of d' = Some "warning" ∧
  ∃ out' written,
    d' !! "output_path" = Some (FPath out') ∧
    FS.stat (files first.1) out = Some (File (Zip written)) ∧
    FS.stat (files second.1) out' = Some (File (Zip written)).
Proof.
  intros first second Hsrc Hret Hout Hpath Hret'. subst first second.
  destruct (deodex_apk apk_path output_dir w) as [w1 r] eqn:Hrun.
  cbn [fst snd] in *. subst r.
  destruct (deodex_apk_returned _ _ _ _ _ _ Hsrc Hrun) as (od & fs2 & _ & _ & -> & ->).
  rewrite strip_output_path in Hout. injection Hout as <-.
  set (written := List.map (copy_of es) (List.filter kept_by_strip es)) in *.
  assert (FS.stat
            (files (World (<[od // (PyPath.stem (PyPath.Path apk_path) +:+ "-deodexed.apk")
                              := File (Zip written)]> fs2) (trace w)))
            (PyPath.Path stripped_path) = Some (File (Zip written))) as Hsrc'.
  { rewrite Hpath. cbn [files].
    destruct (deodexed_name_plain od apk_path) as (x & -> & Hx).
    by rewrite stat_plain, lookup_insert_eq. }
  destruct (deodex_apk stripped_path output_dir' _) as [w2 r] eqn:Hrun'.
  cbn [fst snd] in *. subst r.
  destruct (deodex_apk_returned _ _ _ _ _ _ Hsrc' Hrun') as (od' & fs3 & _ & _ & -> & ->).
  assert (List.filter kept_by_strip written = written) as Hfix
    by apply filter_all, strip_written_kept.
  assert (List.map (copy_of written) written = written) as Hcopy.
  { rewrite <- (map_id written) at 3. apply map_ext_in. intros a Ha.
    apply (copy_of_written_fixed es kept_by_strip). by apply list_elem_of_In. }
  assert (existsb is_bytecode written = false) as Hnone.
  { apply not_true_is_false. intros (e & He & Hb)%existsb_exists.
    pose proof (strip_written_kept es) as Hk. rewrite Forall_forall in Hk.
    apply list_elem_of_In, Hk in He. unfold kept_by_strip, is_bytecode in *.
    rewrite Hb in He. by rewrite andb_false_r in He. }
  rewrite Hnone, strip_status. split; [done|].
  eexists _, written. split_and!; [apply strip_output_path| |].
  - rewrite <- Hpath in Hsrc'. by rewrite Hpath in Hsrc'.
  - cbn [files]. rewrite Hfix, Hcopy.
    destruct (deodexed_name_plain od' stripped_path) as (x & -> & Hx).
    by rewrite stat_plain, lookup_insert_eq.
Qed.

(** ** The output archive is never the input *)






(** ** What a run leaves alone *)





Section OdexFrame.

Variable dex2oat : list string → filesystem → filesystem * completed.
Variable self : OdexPatcherAdvanced.



End OdexFrame.

(** ** Error results of the strip *)

(** X13.  For a path without [..] components that names no file the strip
    returns an error result and touches nothing, whatever the output
    directory is, a string included.  For a file that is no zip archive it
    returns an error result that quotes the path as it was given; the
    output directory, for one without [..] components that can be made, has
    been made, and no output archive is written. *)
Theorem deodex_apk_error_results
    (apk_path : string) (output_dir : option dirarg) (w : world) :
  let apk_file := PyPath.Path apk_path in
  let run := deodex_apk apk_path output_dir w in
  (".." ∉ apk_file) →
  (FS.is_file (files w) apk_file = false →
   run = (w, Return (dict [ ("status", FStr "error");
                            ("message", FStr ("APK file not found: "
                                              +:+ PyPath.str apk_file)) ]))) ∧
  (∀ od bytes,
     (output_dir = None ∧ od = PyPath.Path ".") ∨ output_dir = Some (DPath od) →
     (".." ∉ od) →
     FS.stat (files w) apk_file = Some (File (Blob bytes)) →
     (FS.mkdir_parents od (files w)).2 = Return tt →
     run = (World (FS.mkdir_parents od (files w)).1 (trace w),
            Return (dict [ ("status", FStr "error");
                           ("message", FStr ("Invalid ZIP file: " +:+ apk_path)) ]))).
Proof.
  intros apk_file run _. subst run apk_file. split.
  - intros Hno. unfold deodex_apk. unfold_M. cbn beta iota zeta. by rewrite Hno.
  - intros od bytes Hod _ Hsrc Hmk. unfold deodex_apk. unfold_M. cbn beta iota zeta.
    unfold FS.is_file. rewrite Hsrc. cbn [negb files trace].
    pose proof (mkdir_from_keeps_file od [] _ _ _ Hsrc) as Hsrc'.
    destruct Hod as [[-> ->]| ->]; cbn beta iota zeta; cbn [files trace].
    all: unfold FS.mkdir_parents in *.
    all: destruct (FS.mkdir_from _ _ _) as [fs1 r]; cbn [fst snd files trace] in *; subst r.
    all: unfold ZipFile.open_r; by rewrite Hsrc'.
Qed.

(** ** Batches *)

Section Batches.

Variable dex2oat : list string → filesystem → filesystem * completed.
Variable self : OdexPatcherAdvanced.

Lemma run_pool_gather_raise tasks : ∀ w w' finished acc e,
  run_pool tasks w = (w', finished) → gather finished acc = Raise e →
  ∃ t w1 w2, t ∈ tasks ∧ t w1 = (w2, Raise e).
Proof.
  induction tasks as [|t rest IH]; intros w w' finished acc e; simpl.
  - by intros [= <- <-].
  - destruct (t w) as [w1 r] eqn:Ht.
    destruct (run_pool rest w1) as [w2 rs'] eqn:Hrest.
    intros [= <- <-]. destruct r as [d|e0]; simpl.
    + intros Hg. destruct (IH _ _ _ _ _ Hrest Hg) as (t' & v1 & v2 & Hin & Ht').
      exists t', v1, v2. split; [by right|done].
    + intros [= ->]. exists t, w, w1. split; [left|done].
Qed.

Lemma no_task_submitted (l : list string) :
  omap snd (List.map (λ fp, (fp, @None (M pydict))) l) = [].
Proof. induction l as [|? ? IHl]; [done|simpl; exact IHl]. Qed.

Lemma all_inputs_rejected operation (l : list string) :
  omap (λ '(fp, t), match t : option (M pydict) with
                    | None => Some (invalid_operation operation fp)
                    | Some _ => None
                    end) (List.map (λ fp, (fp, None)) l)
  = List.map (invalid_operation operation) l.
Proof. induction l as [|? ? IHl]; [done|simpl; try f_equal; exact IHl]. Qed.

(** X14.  With an operation that is neither ["odex"] nor ["deodex"], compared
    letter by letter, [process_files] runs nothing.  With a pool of at
    least one worker it returns one error result per input, in the order
    of the inputs, and leaves the files and the trace as they were; with
    [num_threads] zero or negative it raises the [ValueError] of the pool
    instead, and returns no result. *)
Theorem process_files_invalid_operation
    (file_paths : list string) (operation : string)
    (bootclasspath : option (list string)) (output_dir : option dirarg) (w : world) :
  let run := process_files dex2oat self file_paths operation bootclasspath
               output_dir w in
  operation ≠ "odex" → operation ≠ "deodex" →
  (0 < num_threads self →
   run = (w, Return (List.map (invalid_operation operation) file_paths))) ∧
  (num_threads self ≤ 0 →
   run = (w, Raise (ValueError "max_workers must be greater than 0"))).
Proof.
  intros run H1%String.eqb_neq H2%String.eqb_neq. subst run. split.
  - intros Hn. rewrite process_files_pool by done.
    unfold task_of. rewrite H1, H2.
    by rewrite no_task_submitted, all_inputs_rejected.
  - intros Hn. by apply process_files_no_pool.
Qed.

(** X15.  With a pool of one worker: when [process_files] returns, it
    returns one result per input, in the order of the inputs: the result
    of the task of that input, or the invalid-operation result.  When it
    raises, the exception is one that a task of an input raised. *)
Theorem process_files_one_result_per_input
    (file_paths : list string) (operation : string)
    (bootclasspath : option (list string)) (output_dir : option dirarg) (w : world) :
  let run := process_files dex2oat self file_paths operation bootclasspath output_dir w in
  let task := task_of dex2oat self operation bootclasspath output_dir in
  num_threads self = 1 →
  (∀ rs, run.2 = Return rs →
     Forall2 (λ fp d, match task fp with
                      | Some t => ∃ w1 w2, t w1 = (w2, Return d)
                      | None => d = invalid_operation operation fp
                      end) file_paths rs) ∧
  (∀ e, run.2 = Raise e →
     ∃ fp t w1 w2, fp ∈ file_paths ∧ task fp = Some t ∧ t w1 = (w2, Raise e)).
Proof.
  intros run task Hone. subst run task.
  rewrite process_files_pool by lia. cbn zeta.
  destruct (decide (operation = "odex" ∨ operation = "deodex")) as [Hop|Hop].
  - set (f := λ fp, match task_of dex2oat self operation bootclasspath output_dir fp with
                    | Some t => t
                    | None => mret []
                    end).
    assert (∀ fp, task_of dex2oat self operation bootclasspath output_dir fp
                  = Some (f fp)) as Htask.
    { intros fp. unfold f, task_of. by destruct Hop as [-> | ->]. }
    assert (∀ l, omap snd (List.map
              (λ fp, (fp, task_of dex2oat self operation bootclasspath output_dir fp)) l)
            = List.map f l) as ->.
    { induction l as [|? ? IHl]; [done|]. simpl. rewrite Htask. simpl.
      f_equal. exact IHl. }
    assert (∀ l, omap (λ '(fp, t), match t : option (M pydict) with
                                    | None => Some (invalid_operation operation fp)
                                    | Some _ => None
                                    end)
                   (List.map (λ fp, (fp, task_of dex2oat self operation bootclasspath
                                           output_dir fp)) l) = []) as ->.
    { induction l as [|? ? IHl]; [done|]. simpl. rewrite Htask. exact IHl. }
    destruct (run_pool _ _) as [w1 finished] eqn:Hpool. cbn [snd]. split.
    + intros rs Hg.
      destruct (run_pool_gather _ _ _ _ _ _ Hpool Hg) as (ds & -> & Hds).
      cbn [app]. clear Hpool Hg. revert ds Hds.
      induction file_paths as [|fp l IH]; intros ds Hds; simpl in Hds.
      * apply Forall2_nil_inv_l in Hds as ->. constructor.
      * apply Forall2_cons_inv_l in Hds as (d & ds' & Hd & Hds' & ->).
        constructor; [by rewrite Htask|by apply IH].
    + intros e Hg.
      destruct (run_pool_gather_raise _ _ _ _ _ _ Hpool Hg) as (t & v1 & v2 & Hin & Ht).
      apply list_elem_of_In, in_map_iff in Hin as (fp & <- & Hin).
      exists fp, (f fp), v1, v2. split_and!; [by apply list_elem_of_In|done..].
  - assert (operation ≠ "odex" ∧ operation ≠ "deodex") as [H1 H2] by tauto.
    apply String.eqb_neq in H1, H2.
    unfold task_of. rewrite H1, H2.
    rewrite no_task_submitted, all_inputs_rejected. cbn [run_pool gather snd].
    split; [|done]. intros rs [= <-].
    induction file_paths as [|fp l IH]; simpl; by constructor.
Qed.

End Batches.

(** ** Resetting the scratch root *)

Section Reset.

Variable self : OdexPatcherAdvanced.



End Reset.

(** ** Construction *)



Section Built.

Variable access_x : path → bool.
Variable which : string → option string.

(** X17.  The constructor makes the scratch root before it looks for the
    compiler: when the compiler is not found the scratch root is left
    behind as a directory.  When the scratch root cannot be made, because
    a regular file is in the way, the constructor raises that error. *)
Theorem init_makes_scratch_root_first
    (sdk_path : option string) (threads : Z) (tmp : string) (w : world) :
  let made := FS.mkdir_parents (PyPath.Path tmp) (files w) in
  let run := __init__ access_x which sdk_path threads tmp w in
  ".." ∉ PyPath.Path tmp →
  files run.1 = made.1 ∧
  trace run.1 = trace w ∧
  (made.2 = Return tt → FS.is_dir (files run.1) (PyPath.Path tmp) = true) ∧
  (∀ e, made.2 = Raise e →
        run.2 = Raise e ∧ (e = FileExistsError ∨ e = NotADirectoryError)).
Proof.
  intros made run Hlex. subst made run.
  pose proof (mkdir_parents_raises (PyPath.Path tmp) (files w)) as Hraises.
  pose proof (mkdir_from_target (PyPath.Path tmp) Hlex [] (files w)) as Htgt.
  unfold __init__, _find_dex2oat. unfold_M. cbn beta iota zeta. cbn [files trace].
  unfold FS.mkdir_parents in *.
  destruct (FS.mkdir_from _ _ _) as [fs1 [[]|e]]; cbn [fst snd files trace] in *.
  - assert (FS.is_dir fs1 (PyPath.Path tmp) = true) as Hdir.
    { unfold FS.is_dir. destruct (decide (PyPath.Path tmp = [])) as [->|Hne];
        [by rewrite stat_nil|].
      rewrite stat_lexical by done. specialize (Htgt eq_refl Hne).
      rewrite app_nil_l in Htgt. by rewrite Htgt. }
    destruct sdk_path as [[|c s]|]; cbn [fst snd files trace].
    1,3: destruct (which "dex2oat"); cbn [fst snd files trace]; by split_and!.
    destruct (FS.is_file fs1 _ && access_x _); cbn [fst snd files trace]; by split_and!.
  - split_and!; [done..| |]; [done|]. intros e' [= <-]. by split.
Qed.


End Built.

(** ** The compile stage and its exit status *)

Section CompileStage.

Variable dex2oat : list string → filesystem → filesystem * completed.
Variable self : OdexPatcherAdvanced.

(** X19.  The compile stage changes the files only through the compiler and
    looks at nothing but the way the process ended: it never raises
    [FileNotFoundError]; a result it returns names the archive, and its
    status is ["success"] exactly when the compiler exited with status
    zero, and ["error"] otherwise. *)
Theorem odex_file_reports_exit_status
    (dex_path apk_file : path) (bootclasspath : option (list string)) (w : world) :
  let launched := dex2oat (odex_command self dex_path apk_file bootclasspath) (files w) in
  let run := _odex_file dex2oat self dex_path apk_file bootclasspath w in
  files run.1 = launched.1 ∧
  (∀ msg, run.2 ≠ Raise (FileNotFoundError msg)) ∧
  (∀ d, run.2 = Return d →
        d !! "original_apk" = Some (FPath apk_file) ∧
        status_of d = Some (match launched.2 with
                            | Exited 0 _ => "success"
                            | _ => "error"
                            end)%string) ∧
  (∀ e, run.2 = Raise e → launched.2 = LaunchError e).
Proof.
  intros launched run. subst launched run.
  split; [apply odex_file_files|].
  unfold _odex_file. unfold_M. cbn beta iota zeta. cbn [files trace].
  destruct (dex2oat _ _) as [fs' c]. cbn [fst snd files trace].
  destruct c as [[|n|n] err|e]; cbn [fst snd].
  - split_and!; [done| |done]. by intros d [= <-].
  - split_and!; [done| |done]. by intros d [= <-].
  - split_and!; [done| |done]. by intros d [= <-].
  - destruct e; cbn [fst snd]; split_and!; try done; try (by intros ? [= <-]).
Qed.

End CompileStage.

(** ** Strip batches with a string for the output directory *)

Section StripBatches.

Variable dex2oat : list string → filesystem → filesystem * completed.
Variable self : OdexPatcherAdvanced.

Lemma deodex_apk_str_dir apk_path s w :
  deodex_apk apk_path (Some (DStr s)) w
  = (w, if FS.is_file (files w) (PyPath.Path apk_path)
        then Raise (AttributeError "'str' object has no attribute 'mkdir'")
        else Return (dict [ ("status", FStr "error");
                            ("message", FStr ("APK file not found: "
                                              +:+ PyPath.str (PyPath.Path apk_path))) ])).
Proof.
  unfold deodex_apk. unfold_M. cbn beta iota zeta.
  by destruct (FS.is_file _ _).
Qed.

(** X20.  With a pool of at least one worker and inputs without [..]
    components, a strip batch whose output directory is given as a string
    writes nothing.  When none of the inputs is a file it returns their
    error results; as soon as one of them is a file the whole batch raises
    [AttributeError] and no result is returned. *)
Theorem process_files_deodex_str_output_dir
    (file_paths : list string) (s : string)
    (bootclasspath : option (list string)) (w : world) :
  let run := process_files dex2oat self file_paths "deodex" bootclasspath
               (Some (DStr s)) w in
  0 < num_threads self →
  Forall (λ fp, ".." ∉ PyPath.Path fp) file_paths →
  run.1 = w ∧
  run.2 = if bool_decide (Exists (λ fp, FS.is_file (files w) (PyPath.Path fp) = true)
                            file_paths)
          then Raise (AttributeError "'str' object has no attribute 'mkdir'")
          else Return (List.map
                         (λ fp, dict [ ("status", FStr "error");
                                       ("message", FStr ("APK file not found: "
                                          +:+ PyPath.str (PyPath.Path fp))) ])
                         file_paths).
Proof.
  intros run Hn _. subst run. rewrite process_files_pool by done.
  cbn zeta. unfold task_of.
  change (String.eqb "deodex" "odex") with false.
  change (String.eqb "deodex" "deodex") with true. cbn iota.
  set (f := λ fp, deodex_apk fp (Some (DStr s))).
  assert (∀ l, omap snd (List.map (λ fp, (fp, Some (f fp))) l) = List.map f l) as ->
    by (induction l as [|? ? IHl]; [done|simpl; try f_equal; exact IHl]).
  assert (∀ l, omap (λ '(fp, t), match t : option (M pydict) with
                                  | None => Some (invalid_operation "deodex" fp)
                                  | Some _ => None
                                  end) (List.map (λ fp, (fp, Some (f fp))) l) = []) as ->
    by (induction l as [|? ? IHl]; [done|simpl; try f_equal; exact IHl]).
  set (err := λ fp, dict [ ("status", FStr "error");
                           ("message", FStr ("APK file not found: "
                                             +:+ PyPath.str (PyPath.Path fp))) ]).
  assert (∀ l acc,
            let '(w', finished) := run_pool (List.map f l) w in
            w' = w ∧
            gather finished acc
            = if bool_decide (Exists (λ fp, FS.is_file (files w) (PyPath.Path fp) = true) l)
              then Raise (AttributeError "'str' object has no attribute 'mkdir'")
              else Return (acc ++ List.map err l)) as Hgen.
  { induction l as [|fp l IH]; intros acc; cbn [List.map run_pool].
    - split; [done|]. cbn [gather]. rewrite bool_decide_false by by intros ?%Exists_nil.
      by rewrite app_nil_r.
    - unfold f at 1. rewrite deodex_apk_str_dir.
      specialize (IH (acc ++ [err fp])).
      destruct (run_pool (List.map f l) w) as [w' finished]. destruct IH as [-> IH].
      split; [done|].
      destruct (FS.is_file (files w) (PyPath.Path fp)) eqn:Hfp; cbn [gather].
      + rewrite bool_decide_true; [done|]. by left.
      + change (dict _) with (err fp). rewrite IH. rewrite <- app_assoc. cbn [app].
        case_bool_decide as Hl.
        * rewrite bool_decide_true; [done|]. by right.
        * rewrite bool_decide_false; [done|].
          intros [Hx|Hx]%Exists_cons; [congruence|done]. }
  specialize (Hgen file_paths []).
  destruct (run_pool _ _) as [w' finished]. destruct Hgen as [-> Hg]. by split.
Qed.

End StripBatches.

(** ** Further runs of the concrete installation *)


Lemma odex_apk_removes_scratch_subdir_witness :
  FS.is_dir
    (files (odex_apk Demo.failing_dex2oat Demo.patcher "app.apk" None None Demo.world).1)
    (tmp_dir Demo.patcher // PyPath.stem (PyPath.Path "app.apk")) = false.
Proof.
  apply (odex_apk_removes_scratch_subdir Demo.failing_dex2oat Demo.patcher "app.apk"
           None None Demo.world).
  vm_compute. reflexivity.
Defined.

Lemma odex_apk_result_shape_witness :
  status_of (dict [ ("status", FStr "error");
                    ("message", FStr "`classes.dex` not found in lib.apk");
                    ("original_apk", FPath ["lib.apk"]) ])
  = Some "error"%string.
Proof.
  apply (odex_apk_result_shape Demo.dex2oat Demo.patcher "lib.apk" None None Demo.world).
  vm_compute. reflexivity.
Defined.

Lemma odex_apk_output_named_by_stem_witness :
  ["app-odexed.apk"]
  = default (PyPath.Path ".") (output_dir_arg None)
    // (PyPath.stem (PyPath.Path "app.apk") +:+ "-odexed.apk").
Proof.
  pose (w' := World (<[ ["b"; "app.zip"] := File (Zip Demo.app_entries) ]>
                       (<[ ["b"] := Dir ]> Demo.fs)) []).
  pose (d := dict [ ("status", FStr "success");
                    ("message", FStr "Odexed APK created at: app-odexed.apk");
                    ("output_path", FPath ["app-odexed.apk"]) ]).
  destruct (odex_apk_output_named_by_stem Demo.dex2oat Demo.patcher
              "app.apk" "b/app.zip" None None None Demo.world w' d d
              ["app-odexed.apk"] ["app-odexed.apk"]) as [_ Hout].
  - vm_compute. reflexivity.
  - vm_compute. reflexivity.
  - vm_compute. reflexivity.
  - vm_compute. reflexivity.
  - vm_compute. reflexivity.
  - exact Hout.
Defined.




Lemma deodex_apk_status_tracks_bytecode_witness :
  let warned := dict [ ("status", FStr "warning");
                       ("message", FStr "No classes.dex found in lib.apk. Already deodexed?");
                       ("output_path", FPath ["lib-deodexed.apk"]) ] in
  let done := dict [
      ("status", FStr "success");
      ("message",
       FStr "Attempted deodexed APK created at: app-deodexed.apk (OAT/VDex removed)");
      ("output_path", FPath ["app-deodexed.apk"]) ] in
  status_of warned
  = Some (if bool_decide ("classes.dex" ∈ ZipFile.namelist Demo.lib_entries)
          then "success" else "warning")%string ∧
  status_of done
  = Some (if bool_decide ("classes.dex" ∈ ZipFile.namelist Demo.app_entries)
          then "success" else "warning")%string.
Proof.
  intros warned done. split.
  - refine (proj1 (deodex_apk_status_tracks_bytecode "lib.apk" None Demo.world
                     Demo.lib_entries warned _ _)); vm_compute; reflexivity.
  - refine (proj1 (deodex_apk_status_tracks_bytecode "app.apk" None Demo.world
                     Demo.app_entries done _ _)); vm_compute; reflexivity.
Defined.

Lemma deodex_apk_twice_witness :
  status_of (dict [
    ("status", FStr "warning");
    ("message", FStr "No classes.dex found in old-deodexed.apk. Already deodexed?");
    ("output_path", FPath ["old-deodexed-deodexed.apk"]) ])
  = Some "warning"%string.
Proof.
  refine (proj1 (deodex_apk_twice "old.apk" "old-deodexed.apk" None None Demo.world
                   Demo.old_entries
                   (dict [ ("status", FStr "success");
                           ("message",
                            FStr ("Attempted deodexed APK created at: old-deodexed.apk"
                                  +:+ " (OAT/VDex removed)"));
                           ("output_path", FPath ["old-deodexed.apk"]) ])
                   _ ["old-deodexed.apk"] _ _ _ _ _)); vm_compute; reflexivity.
Defined.


Lemma process_files_invalid_operation_witness :
  process_files Demo.dex2oat Demo.patcher ["app.apk"; "nope.apk"] "Odex" None None
    Demo.world
  = (Demo.world,
     Return [ invalid_operation "Odex" "app.apk"; invalid_operation "Odex" "nope.apk" ]).
Proof.
  destruct (process_files_invalid_operation Demo.dex2oat Demo.patcher
              ["app.apk"; "nope.apk"] "Odex" None None Demo.world) as [Hpool _];
    [discriminate..|].
  apply Hpool. reflexivity.
Defined.

Lemma deodex_apk_error_results_witness :
  deodex_apk "nope.apk" (Some (DStr "out")) Demo.world
  = (Demo.world, Return (dict [ ("status", FStr "error");
                                ("message", FStr "APK file not found: nope.apk") ])).
Proof.
  destruct (deodex_apk_error_results "nope.apk" (Some (DStr "out")) Demo.world)
    as [Hmissing _].
  - apply (bool_decide_eq_false_1 _). vm_compute. reflexivity.
  - apply Hmissing. vm_compute. reflexivity.
Defined.

Lemma process_files_one_result_per_input_witness :
  Forall2 (λ fp d, match task_of Demo.dex2oat Demo.one_worker "odex" None None fp with
                   | Some t => ∃ w1 w2, t w1 = (w2, Return d)
                   | None => d = invalid_operation "odex" fp
                   end)
    ["lib.apk"; "nope.apk"]
    [ dict [ ("status", FStr "error");
             ("message", FStr "`classes.dex` not found in lib.apk");
             ("original_apk", FPath ["lib.apk"]) ];
      dict [ ("status", FStr "error");
             ("message", FStr "APK file not found: nope.apk");
             ("original_apk", FPath ["nope.apk"]) ] ].
Proof.
  destruct (process_files_one_result_per_input Demo.dex2oat Demo.one_worker
              ["lib.apk"; "nope.apk"] "odex" None None Demo.world) as [Hreturned _];
    [reflexivity|].
  apply Hreturned. vm_compute. reflexivity.
Defined.

Lemma process_files_deodex_str_output_dir_witness :
  (process_files Demo.dex2oat Demo.patcher ["nope.apk"; "lib.apk"] "deodex" None
     (Some (DStr "out")) Demo.world).2
  = Raise (AttributeError "'str' object has no attribute 'mkdir'").
Proof.
  destruct (process_files_deodex_str_output_dir Demo.dex2oat Demo.patcher
              ["nope.apk"; "lib.apk"] "out" None Demo.world) as [_ Hraised].
  - reflexivity.
  - apply (bool_decide_unpack _). vm_compute. exact I.
  - rewrite Hraised. rewrite bool_decide_true; [reflexivity|].
    right. left. vm_compute. reflexivity.
Defined.


Lemma init_makes_scratch_root_first_witness :
  let run := __init__ (λ _, false) (λ _, None) None 4 "tmp_odex_patcher" (World ∅ []) in
  (∃ msg, run.2 = Raise (FileNotFoundError msg)) ∧
  FS.is_dir (files run.1) (PyPath.Path "tmp_odex_patcher") = true.
Proof.
  intros run. split; [by eexists|].
  destruct (init_makes_scratch_root_first (λ _, false) (λ _, None) None 4
              "tmp_odex_patcher" (World ∅ [])) as (_ & _ & Hdir & _).
  - apply (bool_decide_unpack _). vm_compute. exact I.
  - apply Hdir. vm_compute. reflexivity.
Defined.

